(** * Rule-Eligibility: the rule compiler and evaluator of [Mark1/app.py]

    A shallow embedding of [create_rule], [combine_rules] and
    [evaluate_rule], with the Python string primitives they rely on
    ([str.strip], [str.split], [str.lower], [str.isdigit], [int],
    [re.split]), followed by the properties of the rule language.

    Python strings are sequences of code points.  A Rocq [string] is read
    here as a Python [str] whose code points all lie in U+0000..U+00FF; the
    character classes below are the restriction of Python's Unicode tables
    to that range.  A record is a Python [dict] from attribute names to
    integers or strings, modelled as a [gmap]. *)

From Stdlib Require Import ZArith Ascii.
From Stdlib Require String.
From stdpp Require Import base strings list gmap.

Local Open Scope Z_scope.

(** ** Characters *)

Module PyChar.

Definition code (c : ascii) : N := N_of_ascii c.

Definition between (lo hi : N) (c : ascii) : bool :=
  ((lo <=? code c) && (code c <=? hi))%N.

(** [str.isspace] on one character: what [str.strip] and the
    argument-less [str.split] remove.  TAB, LF, VT, FF, CR, the four
    separators U+001C..U+001F, SPACE, NEL and NO-BREAK SPACE. *)
Definition isspace (c : ascii) : bool :=
  between 9 13 c || between 28 32 c
  || (code c =? 133)%N || (code c =? 160)%N.

(** [str.isdigit] on one character: the ASCII digits and the three
    superscript digits U+00B2, U+00B3, U+00B9. *)
Definition isdigit (c : ascii) : bool :=
  between 48 57 c || between 178 179 c || (code c =? 185)%N.

(** The decimal digits proper, the only ones [int] accepts. *)
Definition isdecimal (c : ascii) : bool := between 48 57 c.

(** [\w] of a [str] pattern: alphanumeric ([str.isalnum]) or underscore. *)
Definition isword (c : ascii) : bool :=
  between 48 57 c || between 65 90 c || (code c =? 95)%N
  || between 97 122 c
  || (code c =? 170)%N || between 178 179 c || (code c =? 181)%N
  || between 185 186 c || between 188 190 c
  || between 192 214 c || between 216 246 c || between 248 255 c.

(** [str.lower] on one character. *)
Definition lower (c : ascii) : ascii :=
  if between 65 90 c || between 192 214 c || between 216 222 c
  then ascii_of_N (code c + 32)
  else c.

End PyChar.

(** ** Strings *)

Module PyStr.

Definition snoc (s : string) (c : ascii) : string := s +:+ String c "".

Fixpoint lstrip (s : string) : string :=
  match s with
  | "" => ""
  | String c s' => if PyChar.isspace c then lstrip s' else s
  end.

Fixpoint rstrip (s : string) : string :=
  match s with
  | "" => ""
  | String c s' =>
      match rstrip s' with
      | "" => if PyChar.isspace c then "" else String c ""
      | r => String c r
      end
  end.

(** [s.strip()] *)
Definition strip (s : string) : string := rstrip (lstrip s).

(** Truthiness of a string: non-empty. *)
Definition nonempty (s : string) : bool :=
  match s with "" => false | _ => true end.

Fixpoint lower (s : string) : string :=
  match s with
  | "" => ""
  | String c s' => String (PyChar.lower c) (lower s')
  end.

Fixpoint all (p : ascii → bool) (s : string) : bool :=
  match s with
  | "" => true
  | String c s' => p c && all p s'
  end.

(** [s.isdigit()]: every character is a digit and there is at least one. *)
Definition isdigit (s : string) : bool := nonempty s && all PyChar.isdigit s.

Fixpoint split_go (cur : string) (s : string) : list string :=
  match s with
  | "" => if nonempty cur then [cur] else []
  | String c s' =>
      if PyChar.isspace c
      then (if nonempty cur then cur :: split_go "" s' else split_go "" s')
      else split_go (snoc cur c) s'
  end.

(** [s.split()]: the maximal runs of non-whitespace characters. *)
Definition split (s : string) : list string := split_go "" s.

Fixpoint int_go (acc : Z) (s : string) : option Z :=
  match s with
  | "" => Some acc
  | String c s' =>
      if PyChar.isdecimal c
      then int_go (10 * acc + (Z.of_N (PyChar.code c) - 48)) s'
      else None
  end.

(** [sys.int_info.default_max_str_digits]: CPython 3.11 and later (and the
    security releases of 3.7 to 3.10) refuse to convert a decimal string of
    more digits than this, with [ValueError].  [app.py] leaves the
    interpreter's limit as it is. *)
Definition max_str_digits : N := 4300.

Definition within_limit (s : string) : bool :=
  (N.of_nat (String.length s) <=? max_str_digits)%N.

(** [int(s)] for a string on which [isdigit] holds (no sign, blank or
    underscore to consider, so every character counts as a digit): the
    decimal value, or [None] for the [ValueError] that a digit which is not
    decimal, or a string longer than [max_str_digits], raises. *)
Definition int (s : string) : option Z :=
  if nonempty s && within_limit s then int_go 0 s else None.

Definition head (s : string) : option ascii :=
  match s with "" => None | String c _ => Some c end.

Fixpoint last (s : string) : option ascii :=
  match s with
  | "" => None
  | String c "" => Some c
  | String _ s' => last s'
  end.

Fixpoint drop (n : nat) (s : string) : string :=
  match n, s with
  | O, _ => s
  | S n', String _ s' => drop n' s'
  | S _, "" => ""
  end.

End PyStr.

(** ** [re.split] with one capturing group *)

Module Re.

(** A pattern is given by its matcher: from the character before the
    current position (for look-behind) and the text from the current
    position on, the text matched there, if any.  All patterns below match
    non-empty text only. *)
Definition matcher := option ascii → string → option string.

(** The scan of [re.split(r"(p)", s)]: [acc] is the text since the last
    separator, [skip] counts the characters of a separator still to be
    passed over.  Each separator is returned between the pieces of text it
    separates, as the capturing group asks. *)
Fixpoint split_go (m : matcher) (prev : option ascii) (skip : nat)
    (acc : string) (s : string) : list string :=
  match s with
  | "" => [acc]
  | String c s' =>
      match skip with
      | S k => split_go m (Some c) k acc s'
      | O =>
          match m prev s with
          | Some sep =>
              acc :: sep ::
                split_go m (Some c) (String.length sep - 1)%nat "" s'
          | None => split_go m (Some c) 0%nat (PyStr.snoc acc c) s'
          end
      end
  end.

Definition split (m : matcher) (s : string) : list string :=
  split_go m None 0%nat "" s.

Definition isword_opt (c : option ascii) : bool :=
  match c with Some c => PyChar.isword c | None => false end.

(** [\b] between two neighbouring positions: exactly one side is a word
    character (the ends of the text count as non-word). *)
Definition boundary (before after : option ascii) : bool :=
  xorb (isword_opt before) (isword_opt after).

(** [\bkw\b] at the current position. *)
Definition keyword (kw : string) : matcher := fun prev s =>
  if boundary prev (PyStr.head s)
     && String.prefix kw s
     && boundary (PyStr.last kw) (PyStr.head (PyStr.drop (String.length kw) s))
  then Some kw else None.

(** A literal alternative. *)
Definition literal (lit : string) : matcher := fun _ s =>
  if String.prefix lit s then Some lit else None.

(** [p|q]: the first alternative that matches. *)
Definition alt (p q : matcher) : matcher := fun prev s =>
  match p prev s with
  | Some r => Some r
  | None => q prev s
  end.

(** [\bAND\b|\bOR\b] *)
Definition logical : matcher := alt (keyword "AND") (keyword "OR").

(** [==|!=|>=|<=|>|<] *)
Definition comparison : matcher :=
  alt (literal "==") (alt (literal "!=") (alt (literal ">=")
    (alt (literal "<=") (alt (literal ">") (literal "<"))))).

End Re.

(** ** Values, errors and trees *)

(** A value of a record, and a coerced literal: [int] or [str]. *)
Inductive pyval :=
  | VInt (n : Z)
  | VStr (s : string).

(** The failures of the three operations.  Where the source raises
    [ValueError] the constructor is named after the kind of error and carries
    the text the message quotes; the line is that of the [raise] in
    [app.py]. *)
Inductive error :=
  | EmptyRuleError
      (* l.19 "Rule string is empty or only contains whitespace." *)
  | IncompleteComparisonError (token : string)
      (* l.36 "Incomplete comparison detected before logical operator" *)
  | InsufficientOperandsError (token : string)
      (* l.40 "Insufficient expressions in stack for logical operator" *)
  | MalformedComparisonError (token : string)
      (* l.51 "Invalid comparison structure" *)
  | NoExpressionError
      (* l.65 "Invalid rule structure: No valid expressions were found." *)
  | UnreducedStackError (n : nat)
      (* l.67 "Invalid rule structure: Final stack contains n items" *)
  | UnsupportedCombinatorError
      (* l.75 "Unsupported operator for combining rules." *)
  | IndexError
      (* l.82 [ast_nodes[0]] on an empty list; [pop] on an empty list *)
  | UnpackError
      (* l.95 the [ValueError] of unpacking a list that has not three items *)
  | AttributeError
      (* l.95 [ast.value.split()] when [value] is [None] *)
  | MissingAttributeError (attribute : string)
      (* l.99 "Data is missing required attribute" *)
  | InvalidComparisonValueError (value : string)
      (* l.105 "Invalid comparison value" *)
  | UnsupportedOperatorError (op : string)
      (* l.120 "Unsupported operator" *)
  | TypeMismatchError
      (* l.112-118 the [TypeError] of ordering an [int] against a [str] *)
  | UnsupportedLogicalOperatorError (op : string).
      (* l.127 "Unsupported logical operator" *)

Inductive result (A : Type) :=
  | OK (a : A)
  | Raise (e : error).
Arguments OK {A} a.
Arguments Raise {A} e.

Definition bind {A B} (m : result A) (f : A → result B) : result B :=
  match m with
  | OK a => f a
  | Raise e => Raise e
  end.

Notation "'let*' x ':=' m 'in' k" := (bind m (fun x => k))
  (at level 10, x name, m at level 100, k at level 200).
Notation "'let*' ' p ':=' m 'in' k" :=
  (bind m (fun x => match x with p => k end))
  (at level 10, p pattern, m at level 100, k at level 200).

#[local] Unset Elimination Schemes.
Inductive Node :=
  mkNode {
    operator : string;
    left : option Node;
    right : option Node;
    value : option string
  }.
#[local] Set Elimination Schemes.

(** ** The compiler *)

(** [Node(operator='COMPARE',
         value=f'{attribute.lower()} {operator} {value}')] *)
Definition compare_node (attribute op val : string) : Node :=
  mkNode "COMPARE" None None
    (Some (PyStr.lower attribute +:+ " " +:+ op +:+ " " +:+ val)).

(** [token in ("AND", "OR")] *)
Definition is_logical (token : string) : bool :=
  String.eqb token "AND" || String.eqb token "OR".

(** [list.pop()]: the last element and the list without it. *)
Fixpoint pop {A} (l : list A) : result (A * list A) :=
  match l with
  | [] => Raise IndexError
  | [x] => OK (x, [])
  | x :: l' => let* '(y, r) := pop l' in OK (y, x :: r)
  end.

(** The two mutable locals of the loop of [create_rule]. *)
Record loop_state := mkState {
  stack : list Node;
  current_comparison : list string
}.

(** One iteration of [for token in tokens]. *)
Definition loop_body (st : loop_state) (token : string) : result loop_state :=
  if is_logical token then
    let* st1 :=
      match current_comparison st with
      | [attribute; op; val] =>
          OK (mkState (stack st ++ [compare_node attribute op val]) [])
      | [] => OK st
      | _ => Raise (IncompleteComparisonError token)
      end in
    if (length (stack st1) <? 2)%nat
    then Raise (InsufficientOperandsError token)
    else
      let* '(r, stk) := pop (stack st1) in
      let* '(l, stk) := pop stk in
      OK (mkState (stk ++ [mkNode token (Some l) (Some r) None])
                  (current_comparison st1))
  else
    let comparison_parts := Re.split Re.comparison token in
    if negb (length comparison_parts =? 3)%nat
    then Raise (MalformedComparisonError token)
    else
      match PyStr.strip <$> comparison_parts with
      | [attribute; op; val] =>
          let cc := [attribute; op; val] in
          if (length cc =? 3)%nat
          then OK (mkState (stack st ++ [compare_node attribute op val]) [])
          else OK (mkState (stack st) cc)
      | _ => Raise UnpackError
      end.

Fixpoint loop (tokens : list string) (st : loop_state) : result loop_state :=
  match tokens with
  | [] => OK st
  | token :: tokens' => let* st' := loop_body st token in loop tokens' st'
  end.

(** [re.split(r"(\bAND\b|\bOR\b)", rule_string)] followed by
    [[token.strip() for token in tokens if token.strip()]]. *)
Definition tokenize (rule_string : string) : list string :=
  PyStr.strip <$>
    List.filter (fun token => PyStr.nonempty (PyStr.strip token))
                (Re.split Re.logical rule_string).

Definition create_rule (rule_string : string) : result Node :=
  let rule_string := PyStr.strip rule_string in
  if negb (PyStr.nonempty rule_string) then Raise EmptyRuleError
  else
    let* st := loop (tokenize rule_string) (mkState [] []) in
    match stack st with
    | [root] => OK root
    | [] => Raise NoExpressionError
    | _ => Raise (UnreducedStackError (length (stack st)))
    end.

(** [[create_rule(rule) for rule in rules]]: the first failure ends it. *)
Fixpoint create_rules (rules : list string) : result (list Node) :=
  match rules with
  | [] => OK []
  | rule :: rules' =>
      let* n := create_rule rule in
      let* ns := create_rules rules' in
      OK (n :: ns)
  end.

Definition combine_rules (rules : list string) (op : string) : result Node :=
  if negb (is_logical op) then Raise UnsupportedCombinatorError
  else
    let* ast_nodes := create_rules rules in
    match ast_nodes with
    | [ast] => OK ast
    | [] => Raise IndexError
    | first :: rest =>
        OK (fold_left (fun combined_ast ast =>
                         mkNode op (Some combined_ast) (Some ast) None)
                      rest first)
    end.

(** ** The evaluator *)

(** [int(value) if value.isdigit() else str(value)], with the [ValueError]
    of [int] turned into the evaluator's own. *)
Definition coerce (val : string) : result pyval :=
  if PyStr.isdigit val
  then match PyStr.int val with
       | Some n => OK (VInt n)
       | None => Raise (InvalidComparisonValueError val)
       end
  else OK (VStr val).

(** [x == y]: values of different types are unequal. *)
Definition py_eq (x y : pyval) : bool :=
  match x, y with
  | VInt a, VInt b => (a =? b)
  | VStr a, VStr b => String.eqb a b
  | _, _ => false
  end.

(** The ordering of two values of one type (integers by value, strings
    lexicographically by code point); [None] across types, where the
    comparison raises [TypeError]. *)
Definition py_compare (x y : pyval) : option comparison :=
  match x, y with
  | VInt a, VInt b => Some (a ?= b)
  | VStr a, VStr b => Some (String.compare a b)
  | _, _ => None
  end.

Definition py_order (test : comparison → bool) (x y : pyval) : result bool :=
  match py_compare x y with
  | Some c => OK (test c)
  | None => Raise TypeMismatchError
  end.

(** The chain of [if operator == ...] of a comparison leaf. *)
Definition apply_operator (op : string) (x lit : pyval) : result bool :=
  if String.eqb op "==" then OK (py_eq x lit)
  else if String.eqb op "!=" then OK (negb (py_eq x lit))
  else if String.eqb op ">" then
    py_order (fun c => match c with Gt => true | _ => false end) x lit
  else if String.eqb op "<" then
    py_order (fun c => match c with Lt => true | _ => false end) x lit
  else if String.eqb op ">=" then
    py_order (fun c => match c with Lt => false | _ => true end) x lit
  else if String.eqb op "<=" then
    py_order (fun c => match c with Gt => false | _ => true end) x lit
  else Raise (UnsupportedOperatorError op).

(** The [COMPARE] branch of [evaluate_rule]. *)
Definition evaluate_compare (text : option string)
    (data : gmap string pyval) : result bool :=
  match text with
  | None => Raise AttributeError
  | Some text =>
      match PyStr.split text with
      | [attribute; op; val] =>
          let attribute := PyStr.lower attribute in
          match data !! attribute with
          | None => Raise (MissingAttributeError attribute)
          | Some x => let* lit := coerce val in apply_operator op x lit
          end
      | _ => Raise UnpackError
      end
  end.

(** [evaluate_rule] on a node that is not [None]. *)
Fixpoint evaluate_node (ast : Node) (data : gmap string pyval) : result bool :=
  match ast with
  | mkNode op l r text =>
      let child (c : option Node) : result bool :=
        match c with
        | None => OK false
        | Some n => evaluate_node n data
        end in
      if String.eqb op "COMPARE" then evaluate_compare text data
      else if String.eqb op "AND" then
        let* b := child l in if b then child r else OK false
      else if String.eqb op "OR" then
        let* b := child l in if b then OK true else child r
      else Raise (UnsupportedLogicalOperatorError op)
  end.

Definition evaluate_rule (ast : option Node) (data : gmap string pyval)
    : result bool :=
  match ast with
  | None => OK false
  | Some n => evaluate_node n data
  end.

(** ** Shapes of token lists and trees *)

(** The shape of what [re.split] returns for the logical pattern: pieces of
    text with one keyword between each two. *)
Inductive alternating : list string → Prop :=
  | alternating_last (text : string) : alternating [text]
  | alternating_more (text sep : string) (rest : list string) :
      is_logical sep = true → alternating rest →
      alternating (text :: sep :: rest).

(** No two neighbouring tokens are both comparisons. *)
Fixpoint separated (tokens : list string) : bool :=
  match tokens with
  | t1 :: ((t2 :: _) as rest) =>
      (is_logical t1 || is_logical t2) && separated rest
  | _ => true
  end.

(** The trees the compiler builds: comparison leaves, and logical nodes over
    two such trees. *)
Inductive compiled : Node → Prop :=
  | compiled_leaf (attribute op val : string) :
      compiled (compare_node attribute op val)
  | compiled_logical (op : string) (l r : Node) :
      is_logical op = true → compiled l → compiled r →
      compiled (mkNode op (Some l) (Some r) None).

(** ** Vocabulary of the statements about evaluation *)

Definition is_int (x : pyval) : bool :=
  match x with VInt _ => true | VStr _ => false end.

Definition is_equality (op : string) : bool :=
  String.eqb op "==" || String.eqb op "!=".

Definition is_ordering (op : string) : bool :=
  String.eqb op ">" || String.eqb op "<"
  || String.eqb op ">=" || String.eqb op "<=".

(** The literal [U+00B2], superscript two. *)
Definition superscript_two : string := String (ascii_of_N 178) "".

(** A literal of 4301 decimal digits, one more than [int] converts. *)
Fixpoint replicate (n : nat) (c : ascii) : string :=
  match n with
  | O => ""
  | S n' => String c (replicate n' c)
  end.

Definition long_literal : string := replicate 4301 "7".

(** A record with the four fields of the web form. *)
Definition applicant : gmap string pyval :=
  {[ "age" := VInt 25; "department" := VStr "sales";
     "income" := VInt 1000; "spend" := VInt 10 ]}.

(** ** Vocabulary of the further properties *)

(** A non-empty text without whitespace: one field of [str.split]. *)
Definition single_word (s : string) : bool :=
  PyStr.nonempty s && PyStr.all (fun c => negb (PyChar.isspace c)) s.

(** [re.split] returns pieces of text with one separator between each two;
    [is_sep] is what is known of the separators. *)
Inductive interleaved (is_sep : string → bool) : list string → Prop :=
  | interleaved_last (text : string) : interleaved is_sep [text]
  | interleaved_more (text sep : string) (rest : list string) :
      is_sep sep = true → interleaved is_sep rest →
      interleaved is_sep (text :: sep :: rest).

(** What a pattern matches at a position is a non-empty prefix of the text
    from that position on. *)
Definition is_comparison_operator (op : string) : bool :=
  is_equality op || is_ordering op.

Definition prefix_matcher (m : Re.matcher) : Prop :=
  ∀ prev s sep, m prev s = Some sep → sep ≠ "" ∧ ∃ rest, s = sep +:+ rest.

(** ["".join(pieces)] *)
Definition join (pieces : list string) : string :=
  foldr String.append "" pieces.

(** The record keys the evaluation of a tree can look up: the lower-cased
    first field of each leaf that reads as three fields. *)
Fixpoint attributes (ast : Node) : list string :=
  match ast with
  | mkNode op l r text =>
      let child (c : option Node) : list string :=
        match c with
        | None => []
        | Some n => attributes n
        end in
      if String.eqb op "COMPARE"
      then match text with
           | Some text =>
               match PyStr.split text with
               | [attribute; _; _] => [PyStr.lower attribute]
               | _ => []
               end
           | None => []
           end
      else if String.eqb op "AND" || String.eqb op "OR"
      then child l ++ child r
      else []
  end.



(** Induction on trees, through the optional children. *)
Definition on_child (P : Node → Prop) (c : option Node) : Prop :=
  match c with
  | None => True
  | Some n => P n
  end.

Fixpoint Node_children_ind (P : Node → Prop)
    (step : ∀ op l r text,
        on_child P l → on_child P r → P (mkNode op l r text))
    (ast : Node) : P ast :=
  match ast with
  | mkNode op l r text =>
      step op l r text
        (match l return on_child P l with
         | None => I
         | Some n => Node_children_ind P step n
         end)
        (match r return on_child P r with
         | None => I
         | Some n => Node_children_ind P step n
         end)
  end.

(** The characters that begin a comparison operator, [= ! < >], and those
    that begin a logical keyword, [A] and [O]. *)
Definition operator_char (c : ascii) : bool :=
  (PyChar.code c =? 61)%N || (PyChar.code c =? 33)%N
  || (PyChar.code c =? 60)%N || (PyChar.code c =? 62)%N.

Definition keyword_char (c : ascii) : bool :=
  (PyChar.code c =? 65)%N || (PyChar.code c =? 79)%N.

(** A plain word: not empty, and made of characters that are neither
    whitespace nor the beginning of an operator or of a keyword. *)
Definition plain_char (c : ascii) : bool :=
  negb (PyChar.isspace c) && negb (operator_char c) && negb (keyword_char c).

Definition plain_word (s : string) : bool :=
  PyStr.nonempty s && PyStr.all plain_char s.

(** Whitespace only, possibly none. *)
Definition blank (s : string) : bool := PyStr.all PyChar.isspace s.

(** * Checks on concrete inputs *)

Example strip_ex : PyStr.strip "  age > 30  " = "age > 30".
Proof. reflexivity. Qed.

Example split_ex : PyStr.split " age   >= 30 " = ["age"; ">="; "30"].
Proof. reflexivity. Qed.

Example re_logical_ex :
  Re.split Re.logical "a > 1 AND b < 2 OR c == 3"
  = ["a > 1 "; "AND"; " b < 2 "; "OR"; " c == 3"].
Proof. reflexivity. Qed.

Example re_logical_word_ex :
  Re.split Re.logical "BRAND == ORACLE" = ["BRAND == ORACLE"].
Proof. reflexivity. Qed.

Example re_comparison_ex :
  Re.split Re.comparison "age >> 30" = ["age "; ">"; ""; ">"; " 30"].
Proof. reflexivity. Qed.

Example re_comparison_ge_ex :
  Re.split Re.comparison "age >= 30" = ["age "; ">="; " 30"].
Proof. reflexivity. Qed.

Example tokenize_ex :
  tokenize "a > 1 AND b < 2 OR c == 3"
  = ["a > 1"; "AND"; "b < 2"; "OR"; "c == 3"].
Proof. reflexivity. Qed.

Example create_rule_leaf_ex :
  create_rule " Department == sales "
  = OK (mkNode "COMPARE" None None (Some "department == sales")).
Proof. reflexivity. Qed.

Example create_rule_double_operator_ex :
  create_rule "age >> 30" = Raise (MalformedComparisonError "age >> 30").
Proof. reflexivity. Qed.

Example evaluate_department_ex :
  (let* t := create_rule "department == sales" in
   evaluate_rule (Some t) applicant) = OK true.
Proof. vm_compute. reflexivity. Qed.

Example evaluate_missing_ex :
  (let* t := create_rule "salary > 10" in evaluate_rule (Some t) applicant)
  = Raise (MissingAttributeError "salary").
Proof. vm_compute. reflexivity. Qed.

Example evaluate_unpack_ex :
  (let* t := create_rule "age == 25 years" in evaluate_rule (Some t) applicant)
  = Raise UnpackError.
Proof. vm_compute. reflexivity. Qed.

Example evaluate_None_ex : evaluate_rule None applicant = OK false.
Proof. reflexivity. Qed.

Example combine_three_ex :
  combine_rules ["age > 18"; "income > 0"; "spend < 5"] "AND"
  = OK (mkNode "AND"
          (Some (mkNode "AND" (Some (compare_node "age" ">" "18"))
                              (Some (compare_node "income" ">" "0")) None))
          (Some (compare_node "spend" "<" "5")) None).
Proof. reflexivity. Qed.

(** * Properties of the compiler loop *)

Section ErrorMonad.
Context {A B : Type}.

Lemma bind_OK (m : result A) (f : A → result B) (b : B) :
  bind m f = OK b → ∃ a, m = OK a ∧ f a = OK b.
Proof. destruct m as [a|e]; simpl; [eauto | discriminate]. Qed.

Lemma bind_Raise (m : result A) (f : A → result B) (e : error) :
  bind m f = Raise e → m = Raise e ∨ ∃ a, m = OK a ∧ f a = Raise e.
Proof. destruct m as [a|e']; simpl; [eauto | intros [= ->]; auto]. Qed.
End ErrorMonad.

Lemma pop_snoc {A} (l : list A) (x : A) : pop (l ++ [x]) = OK (x, l).
Proof.
  induction l as [|a l IH]; [reflexivity|].
  change ((a :: l) ++ [x]) with (a :: (l ++ [x])).
  simpl. rewrite IH. simpl. destruct (l ++ [x]) eqn:E; [|reflexivity].
  by destruct l.
Qed.

Lemma pop_Raise {A} (l : list A) (e : error) : pop l = Raise e → e = IndexError.
Proof.
  induction l as [|a l IH]; simpl; [congruence|].
  destruct l as [|b l]; [discriminate|].
  destruct (pop (b :: l)) as [[y r]|e']; simpl; [discriminate|].
  intros [= ->]. by apply IH.
Qed.

Lemma is_logical_cases (token : string) :
  is_logical token = true → token = "AND" ∨ token = "OR".
Proof.
  unfold is_logical. intros H. apply orb_true_iff in H.
  destruct H as [H|H]; apply String.eqb_eq in H; auto.
Qed.

(** Every iteration that completes leaves the pending buffer empty. *)
Lemma loop_body_buffer (st st' : loop_state) (token : string) :
  loop_body st token = OK st' → current_comparison st' = [].
Proof.
  unfold loop_body. destruct (is_logical token).
  - intros H. apply bind_OK in H as (st1 & H1 & H).
    assert (current_comparison st1 = []) as Hcc.
    { destruct st as [stk [|a [|b [|c [|? ?]]]]]; simpl in H1;
        try discriminate; by injection H1 as <-. }
    destruct (length (stack st1) <? 2)%nat; [discriminate|].
    apply bind_OK in H as ([r stk1] & _ & H).
    apply bind_OK in H as ([l stk2] & _ & H).
    by injection H as <-.
  - destruct (negb _); [discriminate|].
    destruct (PyStr.strip <$> _) as [|a [|b [|c [|? ?]]]]; try discriminate.
    simpl. by intros [= <-].
Qed.

Lemma loop_body_incomplete (st : loop_state) (token token' : string) :
  current_comparison st = [] →
  loop_body st token ≠ Raise (IncompleteComparisonError token').
Proof.
  intros Hcc. unfold loop_body. rewrite Hcc.
  destruct (is_logical token).
  - simpl. destruct (length (stack st) <? 2)%nat; [discriminate|].
    intros H. apply bind_Raise in H as [H|([r stk] & _ & H)].
    { by apply pop_Raise in H. }
    apply bind_Raise in H as [H|([l stk'] & _ & H)]; [|discriminate].
    by apply pop_Raise in H.
  - destruct (negb _); [discriminate|].
    destruct (PyStr.strip <$> _) as [|a [|b [|c [|? ?]]]]; discriminate.
Qed.

Lemma loop_app (pre post : list string) (st : loop_state) :
  loop (pre ++ post) st = let* st' := loop pre st in loop post st'.
Proof.
  revert st. induction pre as [|t pre IH]; intros st; [reflexivity|].
  simpl. destruct (loop_body st t) as [st'|e]; simpl; [apply IH | reflexivity].
Qed.

Lemma loop_buffer (tokens : list string) (st st' : loop_state) :
  current_comparison st = [] →
  loop tokens st = OK st' → current_comparison st' = [].
Proof.
  revert st. induction tokens as [|t tokens IH]; intros st Hcc; simpl.
  - by intros [= <-].
  - intros H. apply bind_OK in H as (st1 & H1 & H).
    apply (IH st1); [by eapply loop_body_buffer | done].
Qed.

Lemma loop_incomplete (tokens : list string) (st : loop_state) (token' : string) :
  current_comparison st = [] →
  loop tokens st ≠ Raise (IncompleteComparisonError token').
Proof.
  revert st. induction tokens as [|t tokens IH]; intros st Hcc; simpl.
  - discriminate.
  - intros H. apply bind_Raise in H as [H|(st1 & H1 & H)].
    + by eapply loop_body_incomplete.
    + apply (IH st1); [by eapply loop_body_buffer | done].
Qed.

(** What an iteration can raise. *)
Lemma loop_body_Raise (st : loop_state) (token : string) (e : error) :
  loop_body st token = Raise e →
  e = IncompleteComparisonError token ∨ e = InsufficientOperandsError token
  ∨ e = MalformedComparisonError token ∨ e = IndexError ∨ e = UnpackError.
Proof.
  unfold loop_body. destruct (is_logical token).
  - intros H. apply bind_Raise in H as [H|(st1 & _ & H)].
    { destruct (current_comparison st) as [|a [|b [|c [|? ?]]]];
        try discriminate; injection H as <-; auto. }
    destruct (length (stack st1) <? 2)%nat; [injection H as <-; auto|].
    apply bind_Raise in H as [H|([r stk] & _ & H)].
    { apply pop_Raise in H. auto. }
    apply bind_Raise in H as [H|([l stk'] & _ & H)]; [|discriminate].
    apply pop_Raise in H. auto.
  - destruct (negb _); [intros [= <-]; auto|].
    destruct (PyStr.strip <$> _) as [|a [|b [|c [|? ?]]]];
      try discriminate; intros [= <-]; auto 6.
Qed.

Lemma loop_Raise (tokens : list string) (st : loop_state) (e : error) :
  loop tokens st = Raise e →
  ∃ token, token ∈ tokens ∧
    (e = IncompleteComparisonError token ∨ e = InsufficientOperandsError token
     ∨ e = MalformedComparisonError token ∨ e = IndexError ∨ e = UnpackError).
Proof.
  revert st. induction tokens as [|t tokens IH]; intros st; simpl.
  - discriminate.
  - intros H. apply bind_Raise in H as [H|(st1 & _ & H)].
    + exists t. split; [left | by eapply loop_body_Raise].
    + destruct (IH _ H) as (token & Hin & He).
      exists token. split; [by right | done].
Qed.

(** ** The token list *)

Lemma logical_match (prev : option ascii) (s sep : string) :
  Re.logical prev s = Some sep → is_logical sep = true.
Proof.
  unfold Re.logical, Re.alt, Re.keyword.
  repeat match goal with |- context [if ?b then _ else _] => destruct b end;
    by intros [= <-].
Qed.

Lemma split_go_alternating (prev : option ascii) (skip : nat) (acc s : string) :
  alternating (Re.split_go Re.logical prev skip acc s).
Proof.
  revert prev skip acc.
  induction s as [|c s IH]; intros prev skip acc; simpl.
  - constructor.
  - destruct skip as [|k]; [|apply IH].
    destruct (Re.logical prev (String c s)) as [sep|] eqn:E; [|apply IH].
    constructor; [by eapply logical_match | apply IH].
Qed.

Lemma separated_cons_logical (t : string) (tokens : list string) :
  is_logical t = true → separated tokens = true →
  separated (t :: tokens) = true.
Proof.
  intros Ht Hs. destruct tokens as [|t2 tokens]; [done|].
  change ((is_logical t || is_logical t2) && separated (t2 :: tokens) = true).
  by rewrite Ht, Hs.
Qed.

Lemma strip_logical (sep : string) :
  is_logical sep = true → PyStr.strip sep = sep.
Proof. intros H. by destruct (is_logical_cases _ H) as [-> | ->]. Qed.

Lemma alternating_separated (pieces : list string) :
  alternating pieces →
  separated
    (PyStr.strip <$>
       List.filter (fun token => PyStr.nonempty (PyStr.strip token)) pieces)
  = true.
Proof.
  induction 1 as [text|text sep rest Hsep _ IH]; simpl.
  - by destruct (PyStr.nonempty (PyStr.strip text)).
  - rewrite (strip_logical _ Hsep).
    assert (PyStr.nonempty sep = true) as ->
      by (by destruct (is_logical_cases _ Hsep) as [-> | ->]).
    pose proof (separated_cons_logical sep _ Hsep IH) as Hrest.
    destruct (PyStr.nonempty (PyStr.strip text));
      rewrite !fmap_cons, (strip_logical _ Hsep); [|exact Hrest].
    change (separated (?t1 :: ?t2 :: ?l))
      with ((is_logical t1 || is_logical t2) && separated (t2 :: l)).
    by rewrite Hsep, orb_true_r.
Qed.

Lemma tokenize_separated (rule_string : string) :
  separated (tokenize rule_string) = true.
Proof. apply alternating_separated, split_go_alternating. Qed.

(** On a token list without neighbouring comparisons the loop can only
    complete when the list is empty or a single comparison. *)
Lemma loop_separated (tokens : list string) (st : loop_state) :
  separated tokens = true →
  loop tokens (mkState [] []) = OK st →
  (tokens = [] ∧ st = mkState [] [])
  ∨ ∃ token attribute op val,
      tokens = [token] ∧ is_logical token = false
      ∧ PyStr.strip <$> Re.split Re.comparison token = [attribute; op; val]
      ∧ st = mkState [compare_node attribute op val] [].
Proof.
  destruct tokens as [|t1 rest]; simpl.
  { intros _ [= <-]. by left. }
  intros Hsep H. right.
  apply bind_OK in H as (st1 & H1 & H).
  unfold loop_body in H1.
  destruct (is_logical t1) eqn:Ht1; [discriminate|].
  destruct (negb _); [discriminate|].
  destruct (PyStr.strip <$> _) as [|a [|b [|c [|? ?]]]] eqn:Eparts;
    try discriminate.
  simpl in H1. injection H1 as <-.
  destruct rest as [|t2 rest].
  - simpl in H. injection H as <-. by exists t1, a, b, c.
  - exfalso. simpl in Hsep.
    apply andb_true_iff in Hsep as [Ht2 _]. simpl in Ht2.
    simpl in H. unfold loop_body in H. rewrite Ht2 in H. discriminate.
Qed.

(** [create_rule] returns comparison leaves only. *)
Lemma create_rule_leaf (rule_string : string) (t : Node) :
  create_rule rule_string = OK t →
  ∃ token attribute op val,
    tokenize (PyStr.strip rule_string) = [token]
    ∧ is_logical token = false
    ∧ PyStr.strip <$> Re.split Re.comparison token = [attribute; op; val]
    ∧ t = compare_node attribute op val.
Proof.
  unfold create_rule. destruct (negb _); [discriminate|].
  intros H. apply bind_OK in H as (st & Hloop & H).
  apply loop_separated in Hloop as [[_ ->]|(token & a & op & v & Ht & Hl & Hp & ->)];
    [discriminate | | apply tokenize_separated].
  simpl in H. injection H as <-. by exists token, a, op, v.
Qed.

(** No rule string compiles to a logical node. *)
Corollary create_rule_never_logical (rule_string : string) (t : Node) :
  create_rule rule_string = OK t →
  operator t = "COMPARE" ∧ left t = None ∧ right t = None.
Proof. by intros (token & a & op & v & _ & _ & _ & ->)%create_rule_leaf. Qed.

(** The final check of the stack never sees more than one tree. *)
Lemma unreduced_stack_unreachable (rule_string : string) (n : nat) :
  create_rule rule_string ≠ Raise (UnreducedStackError n).
Proof.
  unfold create_rule. destruct (negb _); [discriminate|].
  intros H. apply bind_Raise in H as [H|(st & Hloop & H)].
  - apply loop_Raise in H as (token & _ & [H|[H|[H|[H|H]]]]); discriminate.
  - apply loop_separated in Hloop as [[_ ->]|(? & ? & ? & ? & _ & _ & _ & ->)];
      [discriminate.. | apply tokenize_separated].
Qed.

(** * The claims *)

(** C1 (the code differs).  The chain [a > 1 AND b < 2 OR c == 3] does not
    compile to [OR(AND(a>1, b<2), c==3)]: the keyword [AND] is reduced when
    only its left operand is on the stack, so [create_rule] raises the
    insufficient-operands error for it. *)
Theorem chain_rule_insufficient_operands :
  create_rule "a > 1 AND b < 2 OR c == 3"
  = Raise (InsufficientOperandsError "AND").
Proof. reflexivity. Qed.

(** C2 (the code differs).  [combine_rules] joins the two comparisons into
    an [AND] node that evaluates to [True] on a record with both attributes,
    while [create_rule] on the same rule written with the keyword returns no
    tree at all. *)
Theorem combine_versus_create_rule :
  combine_rules ["age > 18"; "income > 0"] "AND"
  = OK (mkNode "AND" (Some (compare_node "age" ">" "18"))
                     (Some (compare_node "income" ">" "0")) None)
  ∧ (let* t := combine_rules ["age > 18"; "income > 0"] "AND" in
     evaluate_rule (Some t) applicant) = OK true
  ∧ create_rule "age > 18 AND income > 0"
    = Raise (InsufficientOperandsError "AND").
Proof. repeat split; vm_compute; reflexivity. Qed.

(** C4, as stated, fails: the rule [age > 30 age < 40] does not end in the
    unreduced-stack error. *)
Lemma two_comparisons_not_unreduced :
  ¬ ∃ n, create_rule "age > 30 age < 40" = Raise (UnreducedStackError n).
Proof. intros [n H]. vm_compute in H. discriminate. Qed.

(** C4 (amended).  The rule [age > 30 age < 40] has no logical keyword, so
    it is one comparison fragment; that fragment splits on the comparison
    operators into five parts instead of three and [create_rule] raises the
    malformed-comparison error naming it. *)
Theorem two_comparisons_malformed :
  tokenize "age > 30 age < 40" = ["age > 30 age < 40"]
  ∧ Re.split Re.comparison "age > 30 age < 40"
    = ["age "; ">"; " 30 age "; "<"; " 40"]
  ∧ create_rule "age > 30 age < 40"
    = Raise (MalformedComparisonError "age > 30 age < 40").
Proof. repeat split; reflexivity. Qed.

(** C5.  On a logical keyword, with an empty pending buffer: when the stack
    ends in two trees [l] and [r], the iteration replaces them by the node
    [token(l, r)]; when the stack holds fewer than two trees it raises the
    insufficient-operands error naming the keyword. *)
Theorem logical_token_reduces (token : string) :
  is_logical token = true →
  (∀ (stk : list Node) (l r : Node),
     loop_body (mkState (stk ++ [l; r]) []) token
     = OK (mkState (stk ++ [mkNode token (Some l) (Some r) None]) []))
  ∧ (∀ stk : list Node,
       (length stk < 2)%nat →
       loop_body (mkState stk []) token
       = Raise (InsufficientOperandsError token)).
Proof.
  intros Htoken. split.
  - intros stk l r. unfold loop_body. rewrite Htoken. simpl.
    assert ((length (stk ++ [l; r]) <? 2)%nat = false) as ->.
    { apply Nat.ltb_ge. rewrite length_app. simpl. lia. }
    change (stk ++ [l; r]) with (stk ++ [l] ++ [r]).
    rewrite app_assoc, pop_snoc. simpl. rewrite pop_snoc. reflexivity.
  - intros stk Hlen. unfold loop_body. rewrite Htoken. simpl.
    apply Nat.ltb_lt in Hlen. by rewrite Hlen.
Qed.

Lemma logical_token_reduces_witness :
  is_logical "OR" = true
  ∧ loop_body (mkState [compare_node "a" ">" "1"; compare_node "b" "<" "2"] [])
              "OR"
    = OK (mkState [mkNode "OR" (Some (compare_node "a" ">" "1"))
                               (Some (compare_node "b" "<" "2")) None] [])
  ∧ loop_body (mkState [compare_node "a" ">" "1"] []) "OR"
    = Raise (InsufficientOperandsError "OR").
Proof.
  split; [reflexivity|]. split.
  - exact (proj1 (logical_token_reduces "OR" eq_refl) []
             (compare_node "a" ">" "1") (compare_node "b" "<" "2")).
  - apply (proj2 (logical_token_reduces "OR" eq_refl)). simpl. lia.
Defined.

(** C6.  [create_rule] raises the empty-rule error exactly when the rule
    string is empty once stripped; in particular on [""] and ["   "]. *)
Theorem empty_rule_error (rule_string : string) :
  create_rule rule_string = Raise EmptyRuleError
  ↔ PyStr.strip rule_string = "".
Proof.
  unfold create_rule. split.
  - destruct (PyStr.strip rule_string) as [|c s] eqn:E; [done|]. simpl.
    intros H. apply bind_Raise in H as [H|(st & _ & H)].
    + apply loop_Raise in H as (token & _ & [H|[H|[H|[H|H]]]]); discriminate.
    + destruct (stack st) as [|t [|t' stk]]; discriminate.
  - by intros ->.
Qed.

Lemma empty_rule_error_witness :
  (PyStr.strip "" = "" ∧ create_rule "" = Raise EmptyRuleError)
  ∧ (PyStr.strip "   " = "" ∧ create_rule "   " = Raise EmptyRuleError).
Proof.
  split; (split; [reflexivity|]).
  - apply (proj2 (empty_rule_error "")). reflexivity.
  - apply (proj2 (empty_rule_error "   ")). reflexivity.
Defined.

(** C10.  In [create_rule] the pending-comparison buffer is empty whenever a
    logical keyword is processed, so the incomplete-comparison error is never
    raised. *)
Theorem incomplete_comparison_unreachable (rule_string : string) :
  (∀ (pre post : list string) (token : string) (st : loop_state),
     tokenize (PyStr.strip rule_string) = pre ++ token :: post →
     is_logical token = true →
     loop pre (mkState [] []) = OK st →
     current_comparison st = [])
  ∧ ∀ token, create_rule rule_string ≠ Raise (IncompleteComparisonError token).
Proof.
  split.
  - intros pre post token st _ _ Hloop.
    by apply (loop_buffer pre (mkState [] []) st).
  - intros token. unfold create_rule. destruct (negb _); [discriminate|].
    intros H. apply bind_Raise in H as [H|(st & _ & H)].
    + by apply loop_incomplete in H.
    + destruct (stack st) as [|t [|t' stk]]; discriminate.
Qed.

Lemma incomplete_comparison_unreachable_witness :
  tokenize (PyStr.strip " a > 1 AND b < 2 ") = ["a > 1"] ++ "AND" :: ["b < 2"]
  ∧ is_logical "AND" = true
  ∧ loop ["a > 1"] (mkState [] []) = OK (mkState [compare_node "a" ">" "1"] [])
  ∧ current_comparison (mkState [compare_node "a" ">" "1"] []) = [].
Proof.
  do 3 (split; [reflexivity|]).
  exact (proj1 (incomplete_comparison_unreachable " a > 1 AND b < 2 ")
           ["a > 1"] ["b < 2"] "AND" (mkState [compare_node "a" ">" "1"] [])
           eq_refl eq_refl eq_refl).
Defined.

(** ** Evaluation *)

Lemma evaluate_node_AND (l r : option Node) (text : option string)
    (data : gmap string pyval) :
  evaluate_node (mkNode "AND" l r text) data
  = let* b := evaluate_rule l data in
    if b then evaluate_rule r data else OK false.
Proof. reflexivity. Qed.

Lemma evaluate_node_OR (l r : option Node) (text : option string)
    (data : gmap string pyval) :
  evaluate_node (mkNode "OR" l r text) data
  = let* b := evaluate_rule l data in
    if b then OK true else evaluate_rule r data.
Proof. reflexivity. Qed.

Lemma evaluate_node_COMPARE (l r : option Node) (text : option string)
    (data : gmap string pyval) :
  evaluate_node (mkNode "COMPARE" l r text) data = evaluate_compare text data.
Proof. reflexivity. Qed.

(** C8.  Both logical operators short-circuit: an [AND] node whose left
    child evaluates to [False] is [False], and an [OR] node whose left child
    evaluates to [True] is [True], whatever the right child is or would
    raise. *)
Theorem logical_short_circuit (l r : option Node) (text : option string)
    (data : gmap string pyval) :
  (evaluate_rule l data = OK false →
   evaluate_node (mkNode "AND" l r text) data = OK false)
  ∧ (evaluate_rule l data = OK true →
     evaluate_node (mkNode "OR" l r text) data = OK true).
Proof.
  split; intros H.
  - rewrite evaluate_node_AND, H. reflexivity.
  - rewrite evaluate_node_OR, H. reflexivity.
Qed.

Lemma logical_short_circuit_witness :
  evaluate_rule (Some (compare_node "salary" ">" "1")) applicant
  = Raise (MissingAttributeError "salary")
  ∧ (evaluate_rule (Some (compare_node "age" ">" "30")) applicant = OK false
     ∧ evaluate_node
         (mkNode "AND" (Some (compare_node "age" ">" "30"))
                       (Some (compare_node "salary" ">" "1")) None) applicant
       = OK false)
  ∧ (evaluate_rule (Some (compare_node "age" "<" "30")) applicant = OK true
     ∧ evaluate_node
         (mkNode "OR" (Some (compare_node "age" "<" "30"))
                      (Some (compare_node "salary" ">" "1")) None) applicant
       = OK true).
Proof.
  split; [vm_compute; reflexivity|]. split.
  - split; [vm_compute; reflexivity|].
    apply (proj1 (logical_short_circuit
                    (Some (compare_node "age" ">" "30"))
                    (Some (compare_node "salary" ">" "1")) None applicant)).
    vm_compute; reflexivity.
  - split; [vm_compute; reflexivity|].
    apply (proj2 (logical_short_circuit
                    (Some (compare_node "age" "<" "30"))
                    (Some (compare_node "salary" ">" "1")) None applicant)).
    vm_compute; reflexivity.
Defined.

Lemma is_ordering_cases (op : string) :
  is_ordering op = true → op = ">" ∨ op = "<" ∨ op = ">=" ∨ op = "<=".
Proof.
  unfold is_ordering. rewrite !orb_true_iff, !String.eqb_eq. tauto.
Qed.

Lemma is_equality_cases (op : string) :
  is_equality op = true → op = "==" ∨ op = "!=".
Proof.
  unfold is_equality. rewrite !orb_true_iff, !String.eqb_eq. tauto.
Qed.

(** C9.  At a comparison leaf with an ordering operator, a record value and
    a coerced literal of different types (one integer, one string) make the
    evaluation raise the type-mismatch error. *)
Theorem ordering_type_mismatch (l r : option Node)
    (text attribute op val : string) (data : gmap string pyval)
    (x lit : pyval) :
  PyStr.split text = [attribute; op; val] →
  is_ordering op = true →
  data !! PyStr.lower attribute = Some x →
  coerce val = OK lit →
  is_int x ≠ is_int lit →
  evaluate_node (mkNode "COMPARE" l r (Some text)) data
  = Raise TypeMismatchError.
Proof.
  intros Hsplit Hop Hx Hlit Htype.
  rewrite evaluate_node_COMPARE. unfold evaluate_compare.
  rewrite Hsplit, Hx, Hlit. simpl.
  destruct x, lit; simpl in Htype; try congruence;
    destruct (is_ordering_cases _ Hop) as [->|[->|[->| ->]]]; reflexivity.
Qed.

Lemma ordering_type_mismatch_witness :
  PyStr.split "age >= abc" = ["age"; ">="; "abc"]
  ∧ is_ordering ">=" = true
  ∧ applicant !! PyStr.lower "age" = Some (VInt 25)
  ∧ coerce "abc" = OK (VStr "abc")
  ∧ is_int (VInt 25) ≠ is_int (VStr "abc")
  ∧ evaluate_node (mkNode "COMPARE" None None (Some "age >= abc")) applicant
    = Raise TypeMismatchError.
Proof.
  do 4 (split; [vm_compute; reflexivity|]).
  split; [simpl; discriminate|].
  apply (ordering_type_mismatch None None "age >= abc" "age" ">=" "abc"
           applicant (VInt 25) (VStr "abc")).
  - vm_compute; reflexivity.
  - vm_compute; reflexivity.
  - vm_compute; reflexivity.
  - vm_compute; reflexivity.
  - simpl; discriminate.
Defined.

(** ** Coercion of the literal *)

Lemma split_go_nonempty (s cur word : string) :
  word ∈ PyStr.split_go cur s → PyStr.nonempty word = true.
Proof.
  revert cur. induction s as [|c s IH]; intros cur; simpl.
  - destruct (PyStr.nonempty cur) eqn:E.
    + by intros ->%list_elem_of_singleton.
    + by intros ?%not_elem_of_nil.
  - destruct (PyChar.isspace c); [|apply IH].
    destruct (PyStr.nonempty cur) eqn:E; [|apply IH].
    intros [->|H]%elem_of_cons; [done | by eapply IH].
Qed.

Lemma all_isdecimal_isdigit (s : string) :
  PyStr.all PyChar.isdecimal s = true → PyStr.all PyChar.isdigit s = true.
Proof.
  induction s as [|c s IH]; simpl; [done|].
  intros [Hc Hs]%andb_true_iff. rewrite (IH Hs), andb_true_r.
  unfold PyChar.isdigit. unfold PyChar.isdecimal in Hc. by rewrite Hc.
Qed.

Lemma int_go_isdecimal (s : string) (acc : Z) :
  PyStr.all PyChar.isdecimal s = true → is_Some (PyStr.int_go acc s).
Proof.
  revert acc. induction s as [|c s IH]; intros acc; simpl; [eauto|].
  intros [Hc Hs]%andb_true_iff. rewrite Hc. by apply IH.
Qed.

Lemma int_go_not_isdecimal (s : string) (acc : Z) :
  PyStr.all PyChar.isdecimal s = false → PyStr.int_go acc s = None.
Proof.
  revert acc. induction s as [|c s IH]; intros acc; simpl; [done|].
  destruct (PyChar.isdecimal c); [apply IH | done].
Qed.

(** C7, as stated, fails: the literal made of a superscript two is not made
    of decimal digits, yet it is not compared as a string (which would make
    the comparison with the same string [True]): [str.isdigit] accepts it,
    [int] rejects it and the evaluation raises the invalid-value error. *)
Lemma superscript_literal_not_string :
  PyStr.all PyChar.isdecimal superscript_two = false
  ∧ create_rule ("age == " +:+ superscript_two)
    = OK (compare_node "age" "==" superscript_two)
  ∧ apply_operator "==" (VStr superscript_two) (VStr superscript_two) = OK true
  ∧ evaluate_node (compare_node "age" "==" superscript_two)
                   {[ "age" := VStr superscript_two ]}
    = Raise (InvalidComparisonValueError superscript_two).
Proof. repeat split; vm_compute; reflexivity. Qed.

(** C7 (amended).  At a comparison leaf the literal is coerced from the
    leaf's text at evaluation time.  A literal of decimal digits only
    ([str.isdecimal]; in U+0000..U+00FF the digits 0 to 9), no longer than
    the interpreter's limit of 4300 digits, is compared as the integer it
    denotes.  A literal with a character that is not a digit ([str.isdigit])
    is compared as a string.  A literal of digits that are not all decimal (a
    superscript digit among them), and a literal of more than 4300 decimal
    digits, raise the invalid-value error. *)
Theorem literal_coercion (l r : option Node)
    (text attribute op val : string) (data : gmap string pyval) (x : pyval) :
  PyStr.split text = [attribute; op; val] →
  data !! PyStr.lower attribute = Some x →
  (PyStr.all PyChar.isdecimal val = true →
   PyStr.within_limit val = true →
   ∃ n, PyStr.int val = Some n
        ∧ evaluate_node (mkNode "COMPARE" l r (Some text)) data
          = apply_operator op x (VInt n))
  ∧ (PyStr.all PyChar.isdigit val = false →
     evaluate_node (mkNode "COMPARE" l r (Some text)) data
     = apply_operator op x (VStr val))
  ∧ (PyStr.all PyChar.isdigit val = true →
     PyStr.all PyChar.isdecimal val = false →
     evaluate_node (mkNode "COMPARE" l r (Some text)) data
     = Raise (InvalidComparisonValueError val))
  ∧ (PyStr.all PyChar.isdecimal val = true →
     PyStr.within_limit val = false →
     evaluate_node (mkNode "COMPARE" l r (Some text)) data
     = Raise (InvalidComparisonValueError val)).
Proof.
  intros Hsplit Hx.
  assert (PyStr.nonempty val = true) as Hne.
  { apply (split_go_nonempty text ""). fold (PyStr.split text).
    rewrite Hsplit. set_solver. }
  rewrite evaluate_node_COMPARE. unfold evaluate_compare.
  rewrite Hsplit, Hx. unfold coerce, PyStr.isdigit, PyStr.int.
  rewrite Hne. simpl. split; [|split; [|split]].
  - intros Hdec ->. rewrite (all_isdecimal_isdigit _ Hdec).
    destruct (int_go_isdecimal val 0 Hdec) as [n Hn]. rewrite Hn. eauto.
  - by intros ->.
  - intros -> Hndec. rewrite (int_go_not_isdecimal _ _ Hndec).
    by destruct (PyStr.within_limit val).
  - intros Hdec ->. by rewrite (all_isdecimal_isdigit _ Hdec).
Qed.

Lemma literal_coercion_witness :
  (PyStr.split "age == 025" = ["age"; "=="; "025"]
   ∧ applicant !! PyStr.lower "age" = Some (VInt 25)
   ∧ PyStr.all PyChar.isdecimal "025" = true
   ∧ PyStr.within_limit "025" = true
   ∧ ∃ n, PyStr.int "025" = Some n
          ∧ evaluate_node (mkNode "COMPARE" None None (Some "age == 025"))
                          applicant
            = apply_operator "==" (VInt 25) (VInt n))
  ∧ (PyStr.split "AGE != 2s" = ["AGE"; "!="; "2s"]
     ∧ PyStr.all PyChar.isdigit "2s" = false
     ∧ evaluate_node (mkNode "COMPARE" None None (Some "AGE != 2s")) applicant
       = apply_operator "!=" (VInt 25) (VStr "2s"))
  ∧ (PyStr.split ("age == " +:+ superscript_two)
     = ["age"; "=="; superscript_two]
     ∧ PyStr.all PyChar.isdigit superscript_two = true
     ∧ PyStr.all PyChar.isdecimal superscript_two = false
     ∧ evaluate_node
         (mkNode "COMPARE" None None (Some ("age == " +:+ superscript_two)))
         applicant
       = Raise (InvalidComparisonValueError superscript_two))
  ∧ (PyStr.split ("age == " +:+ long_literal) = ["age"; "=="; long_literal]
     ∧ PyStr.all PyChar.isdecimal long_literal = true
     ∧ PyStr.within_limit long_literal = false
     ∧ evaluate_node
         (mkNode "COMPARE" None None (Some ("age == " +:+ long_literal)))
         applicant
       = Raise (InvalidComparisonValueError long_literal)).
Proof.
  split; [|split; [|split]].
  - do 4 (split; [vm_compute; reflexivity|]).
    apply (proj1 (literal_coercion None None "age == 025" "age" "==" "025"
                    applicant (VInt 25) eq_refl eq_refl));
      vm_compute; reflexivity.
  - do 2 (split; [vm_compute; reflexivity|]).
    apply (proj1 (proj2 (literal_coercion None None "AGE != 2s" "AGE" "!="
                           "2s" applicant (VInt 25) eq_refl eq_refl))).
    vm_compute; reflexivity.
  - do 3 (split; [vm_compute; reflexivity|]).
    apply (proj1 (proj2 (proj2 (literal_coercion None None
                                  ("age == " +:+ superscript_two) "age" "=="
                                  superscript_two applicant (VInt 25)
                                  eq_refl eq_refl))));
      vm_compute; reflexivity.
  - assert (PyStr.split ("age == " +:+ long_literal)
            = ["age"; "=="; long_literal]) as Hsplit
      by (vm_compute; reflexivity).
    split; [exact Hsplit|]. do 2 (split; [vm_compute; reflexivity|]).
    apply (proj2 (proj2 (proj2 (literal_coercion None None
                                  ("age == " +:+ long_literal) "age" "=="
                                  long_literal applicant (VInt 25)
                                  Hsplit eq_refl))));
      vm_compute; reflexivity.
Defined.

(** ** Trees of the compiler *)

Lemma create_rule_compiled (rule_string : string) (t : Node) :
  create_rule rule_string = OK t → compiled t.
Proof.
  intros (token & a & op & v & _ & _ & _ & ->)%create_rule_leaf. constructor.
Qed.

Lemma create_rules_compiled (rules : list string) (ts : list Node) :
  create_rules rules = OK ts → Forall compiled ts.
Proof.
  revert ts. induction rules as [|rule rules IH]; intros ts; simpl.
  - intros [= <-]. constructor.
  - intros H. apply bind_OK in H as (n & Hn & H).
    apply bind_OK in H as (ns & Hns & H). injection H as <-.
    constructor; [by eapply create_rule_compiled | by apply IH].
Qed.

Lemma fold_left_compiled (op : string) (rest : list Node) (first : Node) :
  is_logical op = true → compiled first → Forall compiled rest →
  compiled (fold_left (fun combined_ast ast =>
                         mkNode op (Some combined_ast) (Some ast) None)
                      rest first).
Proof.
  intros Hop Hfirst Hrest. revert first Hfirst.
  induction Hrest as [|ast rest Hast _ IH]; intros first Hfirst; simpl.
  - done.
  - apply IH. by constructor.
Qed.

Lemma combine_rules_compiled (rules : list string) (op : string) (t : Node) :
  combine_rules rules op = OK t → compiled t.
Proof.
  unfold combine_rules. destruct (is_logical op) eqn:Hop; [|discriminate].
  simpl. intros H. apply bind_OK in H as (ts & Hts & H).
  apply create_rules_compiled in Hts.
  destruct ts as [|first [|second rest]]; [discriminate| |].
  - injection H as <-. by inversion Hts.
  - injection H as <-. inversion Hts; subst.
    by apply (fold_left_compiled op (second :: rest) first).
Qed.

(** C3 (the code differs).  [create_rule] accepts comparisons whose literal
    or attribute is more than one word and returns leaves that no record can
    be evaluated against.  The leaf of [age == 25 years] stores a text of
    four fields, and its evaluation fails at the unpacking of
    [value.split()] on every record, also on one that has the attribute
    [age].  The leaf of [x y >] reads back as attribute [x], operator [y]
    and literal [>], and on a record that has [x] its evaluation raises the
    unsupported-operator error. *)
Theorem compiled_leaf_unevaluable :
  (create_rule "age == 25 years" = OK (compare_node "age" "==" "25 years")
   ∧ applicant !! "age" = Some (VInt 25)
   ∧ ∀ data : gmap string pyval,
       evaluate_node (compare_node "age" "==" "25 years") data
       = Raise UnpackError)
  ∧ (create_rule "x y >" = OK (compare_node "x y" ">" "")
     ∧ evaluate_node (compare_node "x y" ">" "") {[ "x" := VInt 1 ]}
       = Raise (UnsupportedOperatorError "y")).
Proof.
  split; [split; [|split]|split].
  - reflexivity.
  - vm_compute; reflexivity.
  - intros data. reflexivity.
  - reflexivity.
  - vm_compute; reflexivity.
Qed.


(** * Further properties *)

(** ** Characters and strings *)

Lemma isspace_lower (c : ascii) :
  PyChar.isspace (PyChar.lower c) = PyChar.isspace c.
Proof. destruct c as [[] [] [] [] [] [] [] []]; reflexivity. Qed.

Lemma lower_lower_char (c : ascii) :
  PyChar.lower (PyChar.lower c) = PyChar.lower c.
Proof. destruct c as [[] [] [] [] [] [] [] []]; reflexivity. Qed.

Lemma lower_lower (s : string) : PyStr.lower (PyStr.lower s) = PyStr.lower s.
Proof.
  induction s as [|c s IH]; simpl; [done|]. by rewrite lower_lower_char, IH.
Qed.

Lemma single_word_lower (s : string) :
  single_word (PyStr.lower s) = single_word s.
Proof.
  unfold single_word. f_equal; [by destruct s|].
  induction s as [|c s IH]; simpl; [done|]. by rewrite isspace_lower, IH.
Qed.

Lemma append_cons (c : ascii) (s t : string) :
  String c s +:+ t = String c (s +:+ t).
Proof. reflexivity. Qed.

Lemma append_nil_r (s : string) : s +:+ "" = s.
Proof. induction s as [|c s IH]; [done|]. by rewrite append_cons, IH. Qed.

Lemma append_assoc (s t u : string) : (s +:+ t) +:+ u = s +:+ (t +:+ u).
Proof. induction s as [|c s IH]; [done|]. by rewrite !append_cons, IH. Qed.

Lemma rstrip_rstrip (s : string) : PyStr.rstrip (PyStr.rstrip s) = PyStr.rstrip s.
Proof.
  induction s as [|c s IH]; simpl; [done|].
  destruct (PyStr.rstrip s) as [|d r] eqn:E.
  - destruct (PyChar.isspace c) eqn:Ec; simpl; [done|]. by rewrite Ec.
  - change (PyStr.rstrip (String c (String d r)))
      with (match PyStr.rstrip (String d r) with
            | "" => if PyChar.isspace c then "" else String c ""
            | r' => String c r'
            end).
    by rewrite IH.
Qed.

Lemma lstrip_rstrip_lstrip (s : string) :
  PyStr.lstrip (PyStr.rstrip (PyStr.lstrip s)) = PyStr.rstrip (PyStr.lstrip s).
Proof.
  induction s as [|c s IH]; simpl; [done|].
  destruct (PyChar.isspace c) eqn:Ec; [exact IH|].
  simpl. destruct (PyStr.rstrip s); rewrite ?Ec; simpl; by rewrite Ec.
Qed.

Lemma strip_strip (s : string) : PyStr.strip (PyStr.strip s) = PyStr.strip s.
Proof.
  unfold PyStr.strip. by rewrite lstrip_rstrip_lstrip, rstrip_rstrip.
Qed.

(** ** [re.split] *)

Lemma prefix_append (p s : string) :
  String.prefix p s = true → ∃ rest, s = p +:+ rest.
Proof.
  revert s. induction p as [|a p IH]; intros s.
  - intros _. by exists s.
  - destruct s as [|b s]; simpl; [discriminate|].
    destruct (ascii_dec a b) as [->|]; [|discriminate].
    intros [rest ->]%IH. by exists rest.
Qed.

Lemma drop_length_append (p rest : string) :
  PyStr.drop (String.length p) (p +:+ rest) = rest
  ∧ (String.length p ≤ String.length (p +:+ rest))%nat.
Proof.
  induction p as [|a p [IH1 IH2]].
  - split; [by destruct rest | simpl; lia].
  - rewrite append_cons. simpl. split; [done | lia].
Qed.

Lemma keyword_prefix (kw : string) :
  kw ≠ "" → prefix_matcher (Re.keyword kw).
Proof.
  intros Hkw prev s sep. unfold Re.keyword.
  destruct (Re.boundary prev (PyStr.head s)); simpl; [|discriminate].
  destruct (String.prefix kw s) eqn:E; simpl; [|discriminate].
  destruct (Re.boundary _ _); [|discriminate].
  intros [= <-]. split; [done | by apply prefix_append].
Qed.

Lemma literal_prefix (lit : string) :
  lit ≠ "" → prefix_matcher (Re.literal lit).
Proof.
  intros Hlit prev s sep. unfold Re.literal.
  destruct (String.prefix lit s) eqn:E; [|discriminate].
  intros [= <-]. split; [done | by apply prefix_append].
Qed.

Lemma alt_prefix (p q : Re.matcher) :
  prefix_matcher p → prefix_matcher q → prefix_matcher (Re.alt p q).
Proof.
  intros Hp Hq prev s sep. unfold Re.alt.
  destruct (p prev s) as [r|] eqn:E.
  - intros [= <-]. by eapply Hp.
  - apply Hq.
Qed.

Lemma logical_prefix : prefix_matcher Re.logical.
Proof. apply alt_prefix; by apply keyword_prefix. Qed.

Lemma comparison_prefix : prefix_matcher Re.comparison.
Proof. repeat apply alt_prefix; by apply literal_prefix. Qed.

Lemma split_go_join (m : Re.matcher) (s : string) :
  prefix_matcher m →
  ∀ (prev : option ascii) (skip : nat) (acc : string),
    (skip ≤ String.length s)%nat →
    join (Re.split_go m prev skip acc s) = acc +:+ PyStr.drop skip s.
Proof.
  intros Hm. induction s as [|c s IH]; intros prev skip acc Hskip.
  - simpl in Hskip. assert (skip = 0%nat) as -> by lia. simpl.
    by rewrite !append_nil_r.
  - simpl in Hskip. destruct skip as [|k]; simpl.
    + destruct (m prev (String c s)) as [sep|] eqn:E.
      * destruct (Hm _ _ _ E) as [Hne [rest Hrest]].
        destruct sep as [|c' sep]; [done|].
        rewrite append_cons in Hrest. injection Hrest as <- ->.
        destruct (drop_length_append sep rest) as [Hdrop Hlen].
        simpl. rewrite Nat.sub_0_r, (IH _ _ _ Hlen), Hdrop.
        by rewrite append_cons.
      * rewrite IH by lia. unfold PyStr.snoc. simpl.
        by rewrite append_assoc.
    + apply IH. lia.
Qed.

Lemma split_go_interleaved (m : Re.matcher) (is_sep : string → bool) :
  (∀ prev s sep, m prev s = Some sep → is_sep sep = true) →
  ∀ (s : string) (prev : option ascii) (skip : nat) (acc : string),
    interleaved is_sep (Re.split_go m prev skip acc s).
Proof.
  intros Hm. induction s as [|c s IH]; intros prev skip acc; simpl.
  - constructor.
  - destruct skip as [|k]; [|apply IH].
    destruct (m prev (String c s)) as [sep|] eqn:E; [|apply IH].
    constructor; [by eapply Hm | apply IH].
Qed.

Lemma comparison_match (prev : option ascii) (s sep : string) :
  Re.comparison prev s = Some sep → is_comparison_operator sep = true.
Proof.
  unfold Re.comparison, Re.alt, Re.literal.
  repeat match goal with |- context [if ?b then _ else _] => destruct b end;
    by intros [= <-].
Qed.

Lemma split_comparison_operator (token a op v : string) :
  PyStr.strip <$> Re.split Re.comparison token = [a; op; v] →
  is_comparison_operator op = true.
Proof.
  pose proof (split_go_interleaved Re.comparison is_comparison_operator
                comparison_match token None 0%nat "") as Hshape.
  fold (Re.split Re.comparison token) in Hshape.
  destruct Hshape as [text|text sep rest Hsep Hrest]; [discriminate|].
  destruct Hrest as [text'|? ? ?]; [|discriminate].
  intros [= _ <- _].
  unfold is_comparison_operator, is_equality, is_ordering in Hsep.
  rewrite !orb_true_iff, !String.eqb_eq in Hsep.
  by destruct Hsep as [[->| ->]|[[[->| ->]| ->]| ->]].
Qed.

(** The tokens of a rule that has a single token, a comparison. *)
Lemma tokenize_singleton (r token : string) :
  tokenize r = [token] → is_logical token = false →
  Re.split Re.logical r = [r] ∧ token = PyStr.strip r.
Proof.
  unfold tokenize. intros Htok Hlog.
  pose proof (split_go_alternating None 0%nat "" r) as Hshape.
  pose proof (split_go_join Re.logical r logical_prefix None 0%nat ""
                (Nat.le_0_l _)) as Hjoin.
  fold (Re.split Re.logical r) in Hshape, Hjoin.
  destruct Hshape as [text|text sep rest Hsep Hrest].
  - simpl in Hjoin. rewrite append_nil_r in Hjoin.
    change ("" +:+ r) with r in Hjoin. subst text.
    simpl in Htok. destruct (PyStr.nonempty (PyStr.strip r)); [|discriminate].
    by injection Htok as <-.
  - exfalso. simpl in Htok. rewrite (strip_logical _ Hsep) in Htok.
    assert (PyStr.nonempty sep = true) as Hne
      by (by destruct (is_logical_cases _ Hsep) as [-> | ->]).
    rewrite Hne in Htok.
    destruct (PyStr.nonempty (PyStr.strip text));
      rewrite !fmap_cons, (strip_logical _ Hsep) in Htok.
    + discriminate.
    + injection Htok as <- _. congruence.
Qed.

Lemma tokenize_nil (r : string) : tokenize r = [] → PyStr.strip r = "".
Proof.
  unfold tokenize. intros Htok.
  pose proof (split_go_alternating None 0%nat "" r) as Hshape.
  pose proof (split_go_join Re.logical r logical_prefix None 0%nat ""
                (Nat.le_0_l _)) as Hjoin.
  fold (Re.split Re.logical r) in Hshape, Hjoin.
  destruct Hshape as [text|text sep rest Hsep Hrest].
  - simpl in Hjoin. rewrite append_nil_r in Hjoin.
    change ("" +:+ r) with r in Hjoin. subst text.
    simpl in Htok. by destruct (PyStr.strip r).
  - exfalso. simpl in Htok. rewrite (strip_logical _ Hsep) in Htok.
    assert (PyStr.nonempty sep = true) as Hne
      by (by destruct (is_logical_cases _ Hsep) as [-> | ->]).
    rewrite Hne in Htok.
    by destruct (PyStr.nonempty (PyStr.strip text)).
Qed.

Lemma separated_lookup (tokens : list string) (i : nat) (t1 t2 : string) :
  separated tokens = true →
  tokens !! i = Some t1 → tokens !! S i = Some t2 →
  is_logical t1 = true ∨ is_logical t2 = true.
Proof.
  revert i. induction tokens as [|a [|b tokens] IH]; intros i Hsep H1 H2.
  - done.
  - by destruct i.
  - change ((is_logical a || is_logical b) && separated (b :: tokens) = true)
      in Hsep.
    apply andb_true_iff in Hsep as [Hab Hrest].
    destruct i as [|i].
    + simpl in H1, H2. injection H1 as <-. injection H2 as <-.
      by apply orb_true_iff.
    + by apply (IH i).
Qed.

(** ** The compiler, completely *)

Lemma pop_OK {A} (l : list A) :
  l ≠ [] → ∃ x r, pop l = OK (x, r) ∧ l = r ++ [x].
Proof.
  destruct l as [|a l] using rev_ind; [done|]. intros _.
  exists a, l. by rewrite pop_snoc.
Qed.

Lemma loop_body_Raise_cases (st : loop_state) (token : string) (e : error) :
  current_comparison st = [] →
  loop_body st token = Raise e →
  (is_logical token = true ∧ e = InsufficientOperandsError token)
  ∨ (is_logical token = false ∧ e = MalformedComparisonError token).
Proof.
  intros Hcc. unfold loop_body. rewrite Hcc.
  destruct (is_logical token); simpl.
  - destruct (length (stack st) <? 2)%nat eqn:Hlen; [intros [= <-]; auto|].
    apply Nat.ltb_ge in Hlen.
    destruct (pop_OK (stack st)) as (r & stk & -> & Hstk).
    { intros E. rewrite E in Hlen. simpl in Hlen. lia. }
    simpl. destruct (pop_OK stk) as (l & stk' & -> & _); [|discriminate].
    intros ->. rewrite Hstk in Hlen. simpl in Hlen. lia.
  - destruct (length _ =? 3)%nat eqn:Hlen; simpl; [|intros [= <-]; auto].
    apply Nat.eqb_eq in Hlen. rewrite <- (length_fmap PyStr.strip) in Hlen.
    destruct (PyStr.strip <$> _) as [|a [|b [|c [|? ?]]]]; discriminate.
Qed.

Lemma loop_Raise_cases (tokens : list string) (st : loop_state) (e : error) :
  current_comparison st = [] →
  loop tokens st = Raise e →
  ∃ token, token ∈ tokens ∧
    ((is_logical token = true ∧ e = InsufficientOperandsError token)
     ∨ (is_logical token = false ∧ e = MalformedComparisonError token)).
Proof.
  revert st. induction tokens as [|t tokens IH]; intros st Hcc; simpl.
  - discriminate.
  - intros H. apply bind_Raise in H as [H|(st1 & H1 & H)].
    + exists t. split; [left | by eapply loop_body_Raise_cases].
    + destruct (IH st1 (loop_body_buffer _ _ _ H1) H) as (token & Hin & He).
      exists token. split; [by right | done].
Qed.

(** X1.  [create_rule] succeeds exactly on the rules that, once stripped,
    are not empty, contain no logical keyword and split on the comparison
    operators into three parts; the result is then the leaf of those parts,
    stripped. *)
Theorem create_rule_OK_iff (rule_string : string) (t : Node) :
  create_rule rule_string = OK t
  ↔ PyStr.strip rule_string ≠ ""
    ∧ Re.split Re.logical (PyStr.strip rule_string) = [PyStr.strip rule_string]
    ∧ ∃ attribute op val,
        PyStr.strip <$> Re.split Re.comparison (PyStr.strip rule_string)
        = [attribute; op; val]
        ∧ t = compare_node attribute op val.
Proof.
  split.
  - intros H. pose proof H as Hleaf.
    apply create_rule_leaf in Hleaf as (token & a & op & v & Htok & Hlog & Hp & ->).
    apply tokenize_singleton in Htok as [Hsplit ->]; [|done].
    rewrite strip_strip in Hp. split; [|split; [done|by exists a, op, v]].
    intros E. unfold create_rule in H. by rewrite E in H.
  - intros (Hne & Hsplit & a & op & v & Hp & ->).
    pose proof (strip_strip rule_string) as Hss.
    unfold create_rule.
    destruct (PyStr.strip rule_string) as [|c r] eqn:E; [done|].
    assert (tokenize (String c r) = [String c r]) as ->.
    { unfold tokenize. rewrite Hsplit.
      change (List.filter ?f [?x]) with (if f x then [x] else []).
      cbv beta. rewrite Hss.
      change ([PyStr.strip (String c r)] = [String c r]). by rewrite Hss. }
    assert (is_logical (String c r) = false) as Hlog.
    { destruct (is_logical (String c r)) eqn:Hlog; [|done].
      destruct (is_logical_cases _ Hlog) as [Hr|Hr]; rewrite Hr in Hsplit;
        vm_compute in Hsplit; discriminate. }
    assert (length (Re.split Re.comparison (String c r)) = 3%nat) as Hlen.
    { by rewrite <- (length_fmap PyStr.strip), Hp. }
    cbn [negb PyStr.nonempty loop bind]. unfold loop_body.
    rewrite Hlog, Hlen, Hp. reflexivity.
Qed.

Lemma create_rule_OK_iff_witness :
  PyStr.strip " Age >= 21 " ≠ ""
  ∧ Re.split Re.logical (PyStr.strip " Age >= 21 ") = [PyStr.strip " Age >= 21 "]
  ∧ PyStr.strip <$> Re.split Re.comparison (PyStr.strip " Age >= 21 ")
    = ["Age"; ">="; "21"]
  ∧ create_rule " Age >= 21 " = OK (compare_node "Age" ">=" "21").
Proof.
  split; [by vm_compute|]. do 2 (split; [vm_compute; reflexivity|]).
  apply (proj2 (create_rule_OK_iff " Age >= 21 " (compare_node "Age" ">=" "21"))).
  split; [by vm_compute|]. split; [vm_compute; reflexivity|].
  exists "Age", ">=", "21". split; vm_compute; reflexivity.
Defined.

(** X2.  The only errors of [create_rule] are the empty-rule error (on a
    blank rule), the insufficient-operands error naming a logical keyword of
    the rule, and the malformed-comparison error naming a comparison fragment
    of the rule: the incomplete-comparison, no-expression and
    unreduced-stack branches are never taken. *)
Theorem create_rule_errors (rule_string : string) (e : error) :
  create_rule rule_string = Raise e →
  (PyStr.strip rule_string = "" ∧ e = EmptyRuleError)
  ∨ ∃ token, token ∈ tokenize (PyStr.strip rule_string) ∧
      ((is_logical token = true ∧ e = InsufficientOperandsError token)
       ∨ (is_logical token = false ∧ e = MalformedComparisonError token)).
Proof.
  unfold create_rule.
  destruct (PyStr.strip rule_string) as [|c r] eqn:E; simpl.
  { intros [= <-]. by left. }
  intros H. right. apply bind_Raise in H as [H|(st & Hloop & H)].
  - by apply loop_Raise_cases in H.
  - exfalso.
    apply loop_separated in Hloop
        as [[Htok ->]|(? & ? & ? & ? & _ & _ & _ & ->)];
      [|discriminate|apply tokenize_separated].
    apply tokenize_nil in Htok.
    rewrite <- E, strip_strip, E in Htok. discriminate.
Qed.

Lemma create_rule_errors_witness :
  create_rule "age > 1 AND" = Raise (InsufficientOperandsError "AND")
  ∧ ((PyStr.strip "age > 1 AND" = ""
      ∧ InsufficientOperandsError "AND" = EmptyRuleError)
     ∨ ∃ token, token ∈ tokenize (PyStr.strip "age > 1 AND") ∧
         ((is_logical token = true
           ∧ InsufficientOperandsError "AND" = InsufficientOperandsError token)
          ∨ (is_logical token = false
             ∧ InsufficientOperandsError "AND"
               = MalformedComparisonError token))).
Proof.
  split; [vm_compute; reflexivity|].
  apply (create_rule_errors "age > 1 AND"). vm_compute; reflexivity.
Defined.

(** X3.  When the rule has more than a single comparison, its first tokens
    decide the error: a leading keyword is reported as lacking operands; a
    leading fragment that does not split into three parts is reported as
    malformed; after a leading well-formed comparison the token that follows
    it (a keyword) is reported as lacking operands. *)
Theorem first_tokens_decide (rule_string t1 : string) (rest : list string) :
  tokenize (PyStr.strip rule_string) = t1 :: rest →
  (is_logical t1 = true →
   create_rule rule_string = Raise (InsufficientOperandsError t1))
  ∧ (is_logical t1 = false →
     length (Re.split Re.comparison t1) ≠ 3%nat →
     create_rule rule_string = Raise (MalformedComparisonError t1))
  ∧ (is_logical t1 = false →
     length (Re.split Re.comparison t1) = 3%nat →
     ∀ t2 rest', rest = t2 :: rest' →
       is_logical t2 = true
       ∧ create_rule rule_string = Raise (InsufficientOperandsError t2)).
Proof.
  intros Htok. pose proof (tokenize_separated (PyStr.strip rule_string)) as Hsep.
  unfold create_rule.
  destruct (PyStr.strip rule_string) as [|c r] eqn:E; [discriminate|].
  rewrite Htok in Hsep |- *. cbn [negb PyStr.nonempty loop].
  split; [|split].
  - intros Hlog. unfold loop_body at 1. by rewrite Hlog.
  - intros Hlog Hlen. apply Nat.eqb_neq in Hlen.
    unfold loop_body at 1. by rewrite Hlog, Hlen.
  - intros Hlog Hlen t2 rest' ->.
    apply andb_true_iff in Hsep as [Ht2 _]. rewrite Hlog in Ht2. simpl in Ht2.
    split; [done|]. unfold loop_body at 1. rewrite Hlog, Hlen. simpl.
    rewrite <- (length_fmap PyStr.strip) in Hlen.
    destruct (PyStr.strip <$> _) as [|a [|b [|v [|? ?]]]]; try discriminate.
    simpl. unfold loop_body. by rewrite Ht2.
Qed.

Lemma first_tokens_decide_witness :
  (tokenize (PyStr.strip "OR age > 1") = "OR" :: ["age > 1"]
   ∧ is_logical "OR" = true
   ∧ create_rule "OR age > 1" = Raise (InsufficientOperandsError "OR"))
  ∧ (tokenize (PyStr.strip "age is 1 AND b < 2") = "age is 1" :: ["AND"; "b < 2"]
     ∧ is_logical "age is 1" = false
     ∧ length (Re.split Re.comparison "age is 1") ≠ 3%nat
     ∧ create_rule "age is 1 AND b < 2"
       = Raise (MalformedComparisonError "age is 1"))
  ∧ (tokenize (PyStr.strip "age > 1 AND b < 2") = "age > 1" :: ["AND"; "b < 2"]
     ∧ is_logical "age > 1" = false
     ∧ length (Re.split Re.comparison "age > 1") = 3%nat
     ∧ is_logical "AND" = true
     ∧ create_rule "age > 1 AND b < 2"
       = Raise (InsufficientOperandsError "AND")).
Proof.
  split; [|split].
  - do 2 (split; [vm_compute; reflexivity|]).
    by apply (proj1 (first_tokens_decide "OR age > 1" "OR" ["age > 1"] eq_refl)).
  - do 2 (split; [vm_compute; reflexivity|]). split; [by vm_compute|].
    apply (proj1 (proj2 (first_tokens_decide "age is 1 AND b < 2" "age is 1"
                           ["AND"; "b < 2"] eq_refl)));
      by vm_compute.
  - do 3 (split; [vm_compute; reflexivity|]).
    by apply (proj2 (proj2 (first_tokens_decide "age > 1 AND b < 2" "age > 1"
                              ["AND"; "b < 2"] eq_refl))
                eq_refl eq_refl "AND" ["b < 2"]).
Defined.

(** X4.  Splitting loses no text: the pieces and separators that [re.split]
    returns for either pattern of [create_rule], joined again, are the text
    that was split. *)
Theorem re_split_join (s : string) :
  join (Re.split Re.logical s) = s ∧ join (Re.split Re.comparison s) = s.
Proof.
  split.
  - apply (split_go_join Re.logical s logical_prefix None 0%nat ""). lia.
  - apply (split_go_join Re.comparison s comparison_prefix None 0%nat ""). lia.
Qed.

(** X5.  The tokens of a rule are not empty and carry no surrounding
    whitespace, and of two neighbouring tokens at least one is a logical
    keyword: two comparisons never follow each other. *)
Theorem tokenize_shape (rule_string : string) :
  (∀ token, token ∈ tokenize rule_string →
     token ≠ "" ∧ PyStr.strip token = token)
  ∧ (∀ (i : nat) (t1 t2 : string),
       tokenize rule_string !! i = Some t1 →
       tokenize rule_string !! S i = Some t2 →
       is_logical t1 = true ∨ is_logical t2 = true).
Proof.
  split.
  - unfold tokenize. intros token (piece & -> & Hin)%list_elem_of_fmap.
    apply list_elem_of_In, filter_In in Hin as [_ Hne].
    split; [by destruct (PyStr.strip piece) | apply strip_strip].
  - intros i t1 t2. apply separated_lookup, tokenize_separated.
Qed.

Lemma tokenize_shape_witness :
  ("b < 2" ∈ tokenize " a > 1 OR   b < 2 "
   ∧ "b < 2" ≠ "" ∧ PyStr.strip "b < 2" = "b < 2")
  ∧ (tokenize " a > 1 OR   b < 2 " !! 1%nat = Some "OR"
     ∧ tokenize " a > 1 OR   b < 2 " !! 2%nat = Some "b < 2"
     ∧ (is_logical "OR" = true ∨ is_logical "b < 2" = true)).
Proof.
  split.
  - assert ("b < 2" ∈ tokenize " a > 1 OR   b < 2 ") as Hin
      by (vm_compute; set_solver).
    split; [exact Hin|].
    exact (proj1 (tokenize_shape " a > 1 OR   b < 2 ") "b < 2" Hin).
  - do 2 (split; [vm_compute; reflexivity|]).
    exact (proj2 (tokenize_shape " a > 1 OR   b < 2 ") 1%nat "OR" "b < 2"
             eq_refl eq_refl).
Defined.

(** ** From the leaf text back to its fields *)

Lemma split_go_word (w cur s : string) :
  PyStr.all (fun c => negb (PyChar.isspace c)) w = true →
  PyStr.split_go cur (w +:+ s) = PyStr.split_go (cur +:+ w) s.
Proof.
  revert cur. induction w as [|c w IH]; intros cur.
  - intros _. by rewrite append_nil_r.
  - intros H. cbn [PyStr.all] in H.
    apply andb_true_iff in H as [Hc Hw]. apply negb_true_iff in Hc.
    rewrite append_cons. cbn [PyStr.split_go].
    rewrite Hc, (IH _ Hw). unfold PyStr.snoc.
    by rewrite append_assoc.
Qed.

Lemma split_go_fields (s cur word : string) :
  PyStr.all (fun c => negb (PyChar.isspace c)) cur = true →
  word ∈ PyStr.split_go cur s → single_word word = true.
Proof.
  assert (∀ u c, PyStr.all (fun c => negb (PyChar.isspace c)) u = true →
                 PyChar.isspace c = false →
                 PyStr.all (fun c => negb (PyChar.isspace c)) (PyStr.snoc u c)
                 = true) as Hsnoc.
  { intros u c Hu Hc. unfold PyStr.snoc.
    induction u as [|d u IH].
    { change ("" +:+ String c "") with (String c ""). simpl. by rewrite Hc. }
    rewrite append_cons. simpl in *.
    apply andb_true_iff in Hu as [-> Hu]. simpl. by apply IH. }
  revert cur. induction s as [|c s IH]; intros cur Hcur; simpl.
  - destruct (PyStr.nonempty cur) eqn:E.
    + intros ->%list_elem_of_singleton. unfold single_word. by rewrite E, Hcur.
    + by intros ?%not_elem_of_nil.
  - destruct (PyChar.isspace c) eqn:Ec; [|by apply IH, Hsnoc].
    destruct (PyStr.nonempty cur) eqn:E; [|by apply IH].
    intros [->|H]%elem_of_cons; [|by apply (IH "")].
    unfold single_word. by rewrite E, Hcur.
Qed.

Lemma leaf_text_split (a op v : string) :
  single_word a = true → single_word op = true → single_word v = true →
  PyStr.split (a +:+ " " +:+ op +:+ " " +:+ v) = [a; op; v].
Proof.
  unfold single_word, PyStr.split.
  intros [Ha Ha']%andb_true_iff [Ho Ho']%andb_true_iff [Hv Hv']%andb_true_iff.
  rewrite (split_go_word a "" _ Ha'). change ("" +:+ a) with a.
  change (" " +:+ ?x) with (String " " x). simpl. rewrite Ha.
  rewrite (split_go_word op "" _ Ho'). change ("" +:+ op) with op.
  simpl. rewrite Ho.
  change ("" +:+ v) with v.
  rewrite <- (append_nil_r v) at 1. rewrite (split_go_word v "" _ Hv').
  change ("" +:+ v) with v. simpl. by rewrite Hv.
Qed.

Lemma comparison_operator_word (op : string) :
  is_comparison_operator op = true → single_word op = true.
Proof.
  unfold is_comparison_operator. intros [H|H]%orb_true_iff.
  - by destruct (is_equality_cases _ H) as [-> | ->].
  - by destruct (is_ordering_cases _ H) as [->|[->|[->| ->]]].
Qed.

Lemma create_rule_parts (rule_string : string) (t : Node) :
  create_rule rule_string = OK t →
  ∃ a op v,
    PyStr.strip <$> Re.split Re.comparison (PyStr.strip rule_string) = [a; op; v]
    ∧ is_comparison_operator op = true
    ∧ t = compare_node a op v.
Proof.
  intros (token & a & op & v & Htok & Hlog & Hp & ->)%create_rule_leaf.
  apply tokenize_singleton in Htok as [_ ->]; [|done].
  rewrite strip_strip in Hp. exists a, op, v.
  split; [done|]. split; [by eapply split_comparison_operator | done].
Qed.

(** X6.  The text a leaf stores for a comparison reads back, by
    [str.split], as the lower-cased attribute, the operator and the literal
    exactly when the attribute and the literal are single words (not empty,
    no whitespace inside). *)
Theorem leaf_text_round_trip (attribute op val text : string) :
  is_comparison_operator op = true →
  value (compare_node attribute op val) = Some text →
  PyStr.split text = [PyStr.lower attribute; op; val]
  ↔ single_word attribute = true ∧ single_word val = true.
Proof.
  intros Hop [= <-]. split.
  - intros Hsplit.
    assert (∀ w, w ∈ [PyStr.lower attribute; op; val] → single_word w = true)
      as Hwords.
    { intros w. rewrite <- Hsplit. by apply split_go_fields. }
    rewrite <- single_word_lower. split; apply Hwords; set_solver.
  - intros [Ha Hv]. apply leaf_text_split; [|by apply comparison_operator_word|done].
    by rewrite single_word_lower.
Qed.

Lemma leaf_text_round_trip_witness :
  is_comparison_operator "<=" = true
  ∧ value (compare_node "Income" "<=" "5000") = Some "income <= 5000"
  ∧ single_word "Income" = true ∧ single_word "5000" = true
  ∧ PyStr.split "income <= 5000" = [PyStr.lower "Income"; "<="; "5000"].
Proof.
  do 4 (split; [vm_compute; reflexivity|]).
  apply (proj2 (leaf_text_round_trip "Income" "<=" "5000" "income <= 5000"
                  eq_refl eq_refl)).
  split; vm_compute; reflexivity.
Defined.

(** X7.  A rule that compiles, and whose attribute and literal are single
    words, evaluates as its comparison: the missing-attribute error naming
    the lower-cased attribute when the record lacks it, and otherwise the
    rule's operator, one of the six, applied to the record's value and the
    coerced literal. *)
Theorem single_comparison_evaluates (rule_string attribute op val : string)
    (t : Node) (data : gmap string pyval) :
  create_rule rule_string = OK t →
  PyStr.strip <$> Re.split Re.comparison (PyStr.strip rule_string)
  = [attribute; op; val] →
  single_word attribute = true → single_word val = true →
  is_comparison_operator op = true
  ∧ evaluate_rule (Some t) data
    = match data !! PyStr.lower attribute with
      | None => Raise (MissingAttributeError (PyStr.lower attribute))
      | Some x => let* lit := coerce val in apply_operator op x lit
      end.
Proof.
  intros (a & op' & v & Hp & Hop & ->)%create_rule_parts Hparts Ha Hv.
  rewrite Hparts in Hp. injection Hp as <- <- <-. split; [done|].
  unfold evaluate_rule, compare_node. rewrite evaluate_node_COMPARE.
  unfold evaluate_compare.
  rewrite leaf_text_split, lower_lower;
    [done|by rewrite single_word_lower|by apply comparison_operator_word|done].
Qed.

Lemma single_comparison_evaluates_witness :
  create_rule "Department != hr" = OK (compare_node "Department" "!=" "hr")
  ∧ PyStr.strip <$> Re.split Re.comparison (PyStr.strip "Department != hr")
    = ["Department"; "!="; "hr"]
  ∧ single_word "Department" = true ∧ single_word "hr" = true
  ∧ is_comparison_operator "!=" = true
  ∧ evaluate_rule (Some (compare_node "Department" "!=" "hr")) applicant
    = match applicant !! PyStr.lower "Department" with
      | None => Raise (MissingAttributeError (PyStr.lower "Department"))
      | Some x => let* lit := coerce "hr" in apply_operator "!=" x lit
      end.
Proof.
  do 4 (split; [vm_compute; reflexivity|]).
  exact (single_comparison_evaluates "Department != hr" "Department" "!=" "hr"
           (compare_node "Department" "!=" "hr") applicant
           eq_refl eq_refl eq_refl eq_refl).
Defined.

(** ** Combining rules *)

Lemma create_rules_app (xs ys : list string) :
  create_rules (xs ++ ys)
  = let* a := create_rules xs in let* b := create_rules ys in OK (a ++ b).
Proof.
  induction xs as [|x xs IH]; simpl.
  - by destruct (create_rules ys).
  - destruct (create_rule x) as [n|e]; simpl; [|done]. rewrite IH.
    destruct (create_rules xs) as [a|e]; simpl; [|done].
    by destruct (create_rules ys).
Qed.

Lemma create_rules_length (rules : list string) (ts : list Node) :
  create_rules rules = OK ts → length ts = length rules.
Proof.
  revert ts. induction rules as [|rule rules IH]; intros ts; simpl.
  - by intros [= <-].
  - intros H. apply bind_OK in H as (n & _ & H).
    apply bind_OK in H as (ns & Hns & H). injection H as <-.
    simpl. by rewrite (IH ns).
Qed.

Lemma create_rules_first_failure (pre post : list string) (rule : string)
    (e : error) :
  Forall (fun r => ∃ n, create_rule r = OK n) pre →
  create_rule rule = Raise e →
  create_rules (pre ++ rule :: post) = Raise e.
Proof.
  intros Hpre Hrule. induction Hpre as [|r pre [n Hn] _ IH]; simpl.
  - by rewrite Hrule.
  - by rewrite Hn, IH.
Qed.

(** X8.  Errors of [combine_rules]: an operator other than [AND] and [OR]
    is refused before any rule is looked at; with a valid operator, an empty
    list of rules raises [IndexError], and the error of the first rule that
    does not compile is the error of the whole call, whatever follows it. *)
Theorem combine_rules_errors (rules : list string) (op : string) :
  (is_logical op = false →
   combine_rules rules op = Raise UnsupportedCombinatorError)
  ∧ (is_logical op = true → rules = [] →
     combine_rules rules op = Raise IndexError)
  ∧ (is_logical op = true →
     ∀ (pre post : list string) (rule : string) (e : error),
       rules = pre ++ rule :: post →
       Forall (fun r => ∃ n, create_rule r = OK n) pre →
       create_rule rule = Raise e →
       combine_rules rules op = Raise e).
Proof.
  unfold combine_rules. split; [|split].
  - by intros ->.
  - by intros -> ->.
  - intros -> pre post rule e -> Hpre Hrule. simpl.
    by rewrite (create_rules_first_failure pre post rule e).
Qed.

Lemma combine_rules_errors_witness :
  (is_logical "and" = false
   ∧ combine_rules ["age >"; "AND"] "and" = Raise UnsupportedCombinatorError)
  ∧ (is_logical "OR" = true ∧ combine_rules [] "OR" = Raise IndexError)
  ∧ (is_logical "AND" = true
     ∧ Forall (fun r => ∃ n, create_rule r = OK n) ["age > 18"]
     ∧ create_rule "income" = Raise (MalformedComparisonError "income")
     ∧ combine_rules ["age > 18"; "income"; "AND"] "AND"
       = Raise (MalformedComparisonError "income")).
Proof.
  split; [|split].
  - split; [reflexivity|].
    by apply (proj1 (combine_rules_errors ["age >"; "AND"] "and")).
  - split; [reflexivity|].
    by apply (proj1 (proj2 (combine_rules_errors [] "OR"))).
  - assert (Forall (fun r => ∃ n, create_rule r = OK n) ["age > 18"]) as Hpre.
    { constructor; [|constructor]. eexists. reflexivity. }
    split; [reflexivity|]. split; [exact Hpre|]. split; [reflexivity|].
    by apply (proj2 (proj2 (combine_rules_errors
                              ["age > 18"; "income"; "AND"] "AND"))
                eq_refl ["age > 18"] ["AND"] "income").
Defined.

(** X9.  Combining associates to the left: with a valid operator, adding
    one more rule at the end of a non-empty list wraps the combination of
    the list and the new rule's tree, in this order, in one more node;
    errors come in the same order. *)
Theorem combine_rules_snoc (rules : list string) (rule op : string) :
  is_logical op = true → rules ≠ [] →
  combine_rules (rules ++ [rule]) op
  = let* t := combine_rules rules op in
    let* n := create_rule rule in
    OK (mkNode op (Some t) (Some n) None).
Proof.
  intros Hop Hrules. unfold combine_rules. rewrite Hop. simpl.
  rewrite create_rules_app.
  destruct (create_rules rules) as [ts|e] eqn:Hts; simpl; [|done].
  apply create_rules_length in Hts.
  destruct ts as [|first rest]; [by destruct rules|].
  destruct (create_rule rule) as [n|e]; simpl.
  - destruct rest as [|second rest]; simpl; [done|].
    by rewrite fold_left_app.
  - by destruct rest.
Qed.

Lemma combine_rules_snoc_witness :
  is_logical "OR" = true ∧ ["age > 60"; "income < 100"] ≠ []
  ∧ combine_rules (["age > 60"; "income < 100"] ++ ["spend == 0"]) "OR"
    = let* t := combine_rules ["age > 60"; "income < 100"] "OR" in
      let* n := create_rule "spend == 0" in
      OK (mkNode "OR" (Some t) (Some n) None).
Proof.
  split; [reflexivity|]. split; [done|].
  by apply (combine_rules_snoc ["age > 60"; "income < 100"] "spend == 0" "OR").
Defined.

(** X10.  A single rule is combined into itself: with a valid operator,
    [combine_rules] on a one-element list is [create_rule] on that element,
    result or error; the tree the web form has evaluated is therefore never
    a logical node. *)
Theorem combine_rules_single (rule op : string) :
  is_logical op = true →
  combine_rules [rule] op = create_rule rule
  ∧ ∀ t, combine_rules [rule] op = OK t →
      operator t = "COMPARE" ∧ left t = None ∧ right t = None.
Proof.
  intros Hop.
  assert (combine_rules [rule] op = create_rule rule) as Heq.
  { unfold combine_rules. rewrite Hop. simpl.
    by destruct (create_rule rule). }
  split; [done|]. intros t. rewrite Heq. apply create_rule_never_logical.
Qed.

Lemma combine_rules_single_witness :
  is_logical "AND" = true
  ∧ combine_rules ["age > 30 AND income > 5"] "AND"
    = create_rule "age > 30 AND income > 5"
  ∧ combine_rules ["age > 30"] "AND" = OK (compare_node "age" ">" "30")
  ∧ operator (compare_node "age" ">" "30") = "COMPARE".
Proof.
  split; [reflexivity|]. split.
  - by apply (proj1 (combine_rules_single "age > 30 AND income > 5" "AND" eq_refl)).
  - split; [reflexivity|].
    by apply (proj2 (combine_rules_single "age > 30" "AND" eq_refl)
                (compare_node "age" ">" "30")).
Defined.

Lemma fold_left_and_true (data : gmap string pyval) (rest : list Node)
    (first : Node) :
  evaluate_node
    (fold_left (fun combined_ast ast =>
                  mkNode "AND" (Some combined_ast) (Some ast) None)
               rest first) data = OK true
  ↔ evaluate_node first data = OK true
    ∧ Forall (fun n => evaluate_node n data = OK true) rest.
Proof.
  revert first. induction rest as [|n rest IH]; intros first; simpl.
  - split; [by intros ->|by intros [-> _]].
  - rewrite IH, evaluate_node_AND. simpl. rewrite Forall_cons.
    destruct (evaluate_node first data) as [[]|e]; simpl;
      (split; [intros [H1 H2]|intros [H0 [H1 H2]]];
       first [discriminate | auto]).
Qed.

Lemma fold_left_or_false (data : gmap string pyval) (rest : list Node)
    (first : Node) :
  evaluate_node
    (fold_left (fun combined_ast ast =>
                  mkNode "OR" (Some combined_ast) (Some ast) None)
               rest first) data = OK false
  ↔ evaluate_node first data = OK false
    ∧ Forall (fun n => evaluate_node n data = OK false) rest.
Proof.
  revert first. induction rest as [|n rest IH]; intros first; simpl.
  - split; [by intros ->|by intros [-> _]].
  - rewrite IH, evaluate_node_OR. simpl. rewrite Forall_cons.
    destruct (evaluate_node first data) as [[]|e]; simpl;
      (split; [intros [H1 H2]|intros [H0 [H1 H2]]];
       first [discriminate | auto]).
Qed.

Lemma create_rules_Forall (data : gmap string pyval) (b : bool)
    (rules : list string) (ts : list Node) :
  create_rules rules = OK ts →
  Forall (fun n => evaluate_node n data = OK b) ts
  ↔ Forall (fun rule =>
              (let* n := create_rule rule in evaluate_node n data) = OK b)
           rules.
Proof.
  revert ts. induction rules as [|rule rules IH]; intros ts; simpl.
  - intros [= <-]. split; constructor.
  - intros H. apply bind_OK in H as (n & Hn & H).
    apply bind_OK in H as (ns & Hns & H). injection H as <-.
    rewrite !Forall_cons, (IH ns Hns), Hn. done.
Qed.

(** X11.  What a combination means: the tree of [combine_rules] with [AND]
    evaluates to [True] exactly when every rule of the list evaluates to
    [True], and the tree of [combine_rules] with [OR] evaluates to [False]
    exactly when every rule evaluates to [False]. *)
Theorem combine_rules_meaning (rules : list string) (t : Node)
    (data : gmap string pyval) :
  (combine_rules rules "AND" = OK t →
   evaluate_node t data = OK true
   ↔ Forall (fun rule =>
               (let* n := create_rule rule in evaluate_node n data) = OK true)
            rules)
  ∧ (combine_rules rules "OR" = OK t →
     evaluate_node t data = OK false
     ↔ Forall (fun rule =>
                 (let* n := create_rule rule in evaluate_node n data)
                 = OK false)
              rules).
Proof.
  unfold combine_rules. simpl. split; intros H;
    apply bind_OK in H as (ts & Hts & H);
    rewrite <- (create_rules_Forall data _ rules ts Hts);
    destruct ts as [|first [|second rest]]; try discriminate;
    injection H as <-.
  - rewrite Forall_cons, Forall_nil. tauto.
  - rewrite Forall_cons.
    exact (fold_left_and_true data (second :: rest) first).
  - rewrite Forall_cons, Forall_nil. tauto.
  - rewrite Forall_cons.
    exact (fold_left_or_false data (second :: rest) first).
Qed.

Lemma combine_rules_meaning_witness :
  combine_rules ["age > 18"; "income > 0"; "spend < 50"] "AND"
  = OK (mkNode "AND"
          (Some (mkNode "AND" (Some (compare_node "age" ">" "18"))
                              (Some (compare_node "income" ">" "0")) None))
          (Some (compare_node "spend" "<" "50")) None)
  ∧ Forall (fun rule =>
              (let* n := create_rule rule in evaluate_node n applicant)
              = OK true)
           ["age > 18"; "income > 0"; "spend < 50"]
  ∧ evaluate_node
      (mkNode "AND"
         (Some (mkNode "AND" (Some (compare_node "age" ">" "18"))
                             (Some (compare_node "income" ">" "0")) None))
         (Some (compare_node "spend" "<" "50")) None) applicant
    = OK true.
Proof.
  assert (Forall (fun rule =>
                    (let* n := create_rule rule in evaluate_node n applicant)
                    = OK true)
                 ["age > 18"; "income > 0"; "spend < 50"]) as Hall.
  { repeat constructor; vm_compute; reflexivity. }
  split; [reflexivity|]. split; [exact Hall|].
  apply (proj1 (combine_rules_meaning
                  ["age > 18"; "income > 0"; "spend < 50"] _ applicant)
           eq_refl).
  exact Hall.
Defined.

(** ** Evaluation, further *)

Lemma coerce_Raise (val : string) (e : error) :
  coerce val = Raise e → e = InvalidComparisonValueError val.
Proof.
  unfold coerce. destruct (PyStr.isdigit val); [|discriminate].
  destruct (PyStr.int val); [discriminate|]. by intros [= <-].
Qed.

Lemma apply_operator_Raise (op : string) (x lit : pyval) (e : error) :
  apply_operator op x lit = Raise e →
  e = UnsupportedOperatorError op ∨ e = TypeMismatchError.
Proof.
  unfold apply_operator, py_order.
  repeat match goal with
         | |- context [if ?b then _ else _] => destruct b
         end;
    try discriminate;
    try (destruct (py_compare x lit); [discriminate|]);
    intros [= <-]; auto.
Qed.

Lemma evaluate_compare_Raise (text : string) (data : gmap string pyval)
    (e : error) :
  evaluate_compare (Some text) data = Raise e →
  e = UnpackError
  ∨ (∃ a, e = MissingAttributeError a ∧ data !! a = None)
  ∨ (∃ v, e = InvalidComparisonValueError v)
  ∨ (∃ op, e = UnsupportedOperatorError op)
  ∨ e = TypeMismatchError.
Proof.
  unfold evaluate_compare.
  destruct (PyStr.split text) as [|a [|op [|v [|? ?]]]];
    try (intros [= <-]; by left).
  destruct (data !! PyStr.lower a) as [x|] eqn:Hx.
  - intros H. apply bind_Raise in H as [H|(lit & _ & H)].
    + apply coerce_Raise in H. eauto 6.
    + apply apply_operator_Raise in H as [-> | ->]; eauto 8.
  - intros [= <-]. eauto 6.
Qed.

Lemma compiled_evaluate_Raise (t : Node) (data : gmap string pyval) (e : error) :
  compiled t →
  evaluate_node t data = Raise e →
  e = UnpackError
  ∨ (∃ a, e = MissingAttributeError a ∧ data !! a = None)
  ∨ (∃ v, e = InvalidComparisonValueError v)
  ∨ (∃ op, e = UnsupportedOperatorError op)
  ∨ e = TypeMismatchError.
Proof.
  induction 1 as [a op v|op l r Hop _ IHl _ IHr].
  - apply evaluate_compare_Raise.
  - destruct (is_logical_cases _ Hop) as [-> | ->].
    + rewrite evaluate_node_AND. simpl. intros H.
      apply bind_Raise in H as [H|([] & _ & H)]; auto. discriminate.
    + rewrite evaluate_node_OR. simpl. intros H.
      apply bind_Raise in H as [H|([] & _ & H)]; auto. discriminate.
Qed.

(** X12.  Evaluating a tree returned by [create_rule] or [combine_rules]
    can only fail in five ways: the leaf text does not read as three fields,
    the record lacks the attribute named in the error, the literal is
    rejected, the operator field is not a comparison operator, or the types
    do not order.  The branches for a missing leaf text and for an unknown
    logical operator are never reached. *)
Theorem compiled_evaluation_errors (t : Node) (data : gmap string pyval)
    (e : error) :
  (∃ rule_string, create_rule rule_string = OK t)
  ∨ (∃ rules op, combine_rules rules op = OK t) →
  evaluate_node t data = Raise e →
  e = UnpackError
  ∨ (∃ a, e = MissingAttributeError a ∧ data !! a = None)
  ∨ (∃ v, e = InvalidComparisonValueError v)
  ∨ (∃ op, e = UnsupportedOperatorError op)
  ∨ e = TypeMismatchError.
Proof.
  intros [[rule_string H]|(rules & op & H)]; apply compiled_evaluate_Raise.
  - by eapply create_rule_compiled.
  - by eapply combine_rules_compiled.
Qed.

Lemma compiled_evaluation_errors_witness :
  combine_rules ["age > 18"; "salary > 1"] "AND"
  = OK (mkNode "AND" (Some (compare_node "age" ">" "18"))
                     (Some (compare_node "salary" ">" "1")) None)
  ∧ evaluate_node
      (mkNode "AND" (Some (compare_node "age" ">" "18"))
                    (Some (compare_node "salary" ">" "1")) None) applicant
    = Raise (MissingAttributeError "salary")
  ∧ (MissingAttributeError "salary" = UnpackError
     ∨ (∃ a, MissingAttributeError "salary" = MissingAttributeError a
             ∧ applicant !! a = None)
     ∨ (∃ v, MissingAttributeError "salary" = InvalidComparisonValueError v)
     ∨ (∃ op, MissingAttributeError "salary" = UnsupportedOperatorError op)
     ∨ MissingAttributeError "salary" = TypeMismatchError).
Proof.
  split; [reflexivity|]. split; [vm_compute; reflexivity|].
  apply (compiled_evaluation_errors
           (mkNode "AND" (Some (compare_node "age" ">" "18"))
                         (Some (compare_node "salary" ">" "1")) None)
           applicant).
  - right. by exists ["age > 18"; "salary > 1"], "AND".
  - vm_compute; reflexivity.
Defined.




(** X14.  Equality never raises on mixed types and never holds across them:
    when the record's value is an integer and the coerced literal a string,
    or the other way round, [==] evaluates to [False] and [!=] to [True].  A
    record value that is the string of digits ["42"] is thus different from
    the literal [42]. *)
Theorem equality_across_types (l r : option Node)
    (text attribute op val : string) (data : gmap string pyval)
    (x lit : pyval) :
  PyStr.split text = [attribute; op; val] →
  data !! PyStr.lower attribute = Some x →
  coerce val = OK lit →
  is_int x ≠ is_int lit →
  (op = "==" →
   evaluate_node (mkNode "COMPARE" l r (Some text)) data = OK false)
  ∧ (op = "!=" →
     evaluate_node (mkNode "COMPARE" l r (Some text)) data = OK true).
Proof.
  intros Htext Hx Hlit Htype. rewrite evaluate_node_COMPARE.
  unfold evaluate_compare. rewrite Htext, Hx, Hlit. simpl.
  split; intros ->; destruct x, lit; simpl in Htype; try congruence;
    reflexivity.
Qed.

Lemma equality_across_types_witness :
  PyStr.split "code == 42" = ["code"; "=="; "42"]
  ∧ ({[ "code" := VStr "42" ]} : gmap string pyval) !! PyStr.lower "code"
    = Some (VStr "42")
  ∧ coerce "42" = OK (VInt 42)
  ∧ is_int (VStr "42") ≠ is_int (VInt 42)
  ∧ evaluate_node (mkNode "COMPARE" None None (Some "code == 42"))
                   {[ "code" := VStr "42" ]}
    = OK false.
Proof.
  do 3 (split; [vm_compute; reflexivity|]). split; [simpl; discriminate|].
  apply (proj1 (equality_across_types None None "code == 42" "code" "==" "42"
                  {[ "code" := VStr "42" ]} (VStr "42") (VInt 42)
                  ltac:(vm_compute; reflexivity) ltac:(vm_compute; reflexivity)
                  ltac:(vm_compute; reflexivity)
                  ltac:(simpl; discriminate))).
  reflexivity.
Defined.

(** ** What the evaluation reads of the record *)

Lemma evaluate_node_agree (t : Node) (d1 d2 : gmap string pyval) :
  (∀ k, k ∈ attributes t → d1 !! k = d2 !! k) →
  evaluate_node t d1 = evaluate_node t d2.
Proof.
  induction t as [op l r text IHl IHr] using Node_children_ind.
  intros Hagree.
  assert (∀ c : option Node,
            on_child (fun n =>
                        (∀ k, k ∈ attributes n → d1 !! k = d2 !! k) →
                        evaluate_node n d1 = evaluate_node n d2) c →
            (∀ k, k ∈ match c with
                      | None => []
                      | Some n => attributes n
                      end → d1 !! k = d2 !! k) →
            evaluate_rule c d1 = evaluate_rule c d2) as Hchild.
  { intros [n|] IH Hc; [by apply IH | done]. }
  simpl in Hagree |- *.
  destruct (String.eqb op "COMPARE").
  - unfold evaluate_compare. destruct text as [text|]; [|done].
    destruct (PyStr.split text) as [|a [|o [|v [|? ?]]]]; try done.
    rewrite (Hagree (PyStr.lower a)); [done | set_solver].
  - destruct (String.eqb op "AND"); [|destruct (String.eqb op "OR")];
      simpl in Hagree; [| |done].
    + change (bind (evaluate_rule l d1)
                (fun b => if b then evaluate_rule r d1 else OK false)
              = bind (evaluate_rule l d2)
                  (fun b => if b then evaluate_rule r d2 else OK false)).
      rewrite (Hchild l IHl), (Hchild r IHr); [done|..];
        intros k Hk; apply Hagree; set_solver.
    + change (bind (evaluate_rule l d1)
                (fun b => if b then OK true else evaluate_rule r d1)
              = bind (evaluate_rule l d2)
                  (fun b => if b then OK true else evaluate_rule r d2)).
      rewrite (Hchild l IHl), (Hchild r IHr); [done|..];
        intros k Hk; apply Hagree; set_solver.
Qed.

Lemma attributes_lower (t : Node) (k : string) :
  k ∈ attributes t → PyStr.lower k = k.
Proof.
  induction t as [op l r text IHl IHr] using Node_children_ind. simpl.
  destruct (String.eqb op "COMPARE").
  - destruct text as [text|]; [|by intros ?%not_elem_of_nil].
    destruct (PyStr.split text) as [|a [|o [|v [|? ?]]]];
      try by intros ?%not_elem_of_nil.
    intros ->%list_elem_of_singleton. apply lower_lower.
  - destruct (_ || _); [|by intros ?%not_elem_of_nil].
    intros [H|H]%elem_of_app.
    + destruct l as [n|]; [by apply IHl | by apply not_elem_of_nil in H].
    + destruct r as [n|]; [by apply IHr | by apply not_elem_of_nil in H].
Qed.

(** X15.  The result of an evaluation, boolean or error, depends on the
    record only through the attributes of the tree: two records that agree
    on them give the same result, so adding, changing or removing any other
    key changes nothing. *)
Theorem evaluation_reads_attributes (t : Node) (d1 d2 : gmap string pyval) :
  (∀ k, k ∈ attributes t → d1 !! k = d2 !! k) →
  evaluate_node t d1 = evaluate_node t d2.
Proof. apply evaluate_node_agree. Qed.

Lemma evaluation_reads_attributes_witness :
  attributes (mkNode "OR" (Some (compare_node "Age" ">" "30"))
                          (Some (compare_node "spend" "<" "5")) None)
  = ["age"; "spend"]
  ∧ (∀ k, k ∈ ["age"; "spend"] →
        applicant !! k = (<["income" := VStr "none"]> applicant) !! k)
  ∧ evaluate_node
      (mkNode "OR" (Some (compare_node "Age" ">" "30"))
                   (Some (compare_node "spend" "<" "5")) None) applicant
    = evaluate_node
        (mkNode "OR" (Some (compare_node "Age" ">" "30"))
                     (Some (compare_node "spend" "<" "5")) None)
        (<["income" := VStr "none"]> applicant).
Proof.
  assert (∀ k, k ∈ ["age"; "spend"] →
             applicant !! k = (<["income" := VStr "none"]> applicant) !! k)
    as Hagree.
  { intros k Hk. rewrite lookup_insert_ne; [done|]. intros <-.
    apply elem_of_cons in Hk as [Hk|Hk]; [discriminate|].
    apply elem_of_cons in Hk as [Hk|Hk]; [discriminate|].
    by apply not_elem_of_nil in Hk. }
  split; [vm_compute; reflexivity|]. split; [exact Hagree|].
  apply (evaluation_reads_attributes
           (mkNode "OR" (Some (compare_node "Age" ">" "30"))
                        (Some (compare_node "spend" "<" "5")) None)).
  exact Hagree.
Defined.

(** X16.  No tree reads a key that is not in lower case: the value a record
    holds under a key with an upper-case letter has no effect on any
    evaluation. *)
Theorem uppercase_keys_unread (t : Node) (data : gmap string pyval)
    (k : string) (x : pyval) :
  PyStr.lower k ≠ k →
  evaluate_node t (<[k := x]> data) = evaluate_node t data
  ∧ evaluate_node t (delete k data) = evaluate_node t data.
Proof.
  intros Hk. split; apply evaluate_node_agree; intros a Ha.
  - apply lookup_insert_ne. intros ->. by apply attributes_lower in Ha.
  - apply lookup_delete_ne. intros ->. by apply attributes_lower in Ha.
Qed.

Lemma uppercase_keys_unread_witness :
  PyStr.lower "Age" ≠ "Age"
  ∧ evaluate_node (compare_node "Age" ">" "30")
                   (<["Age" := VInt 99]> applicant)
    = evaluate_node (compare_node "Age" ">" "30") applicant
  ∧ evaluate_node (compare_node "Age" ">" "30") applicant = OK false.
Proof.
  split; [by vm_compute|]. split; [|vm_compute; reflexivity].
  apply (proj1 (uppercase_keys_unread (compare_node "Age" ">" "30") applicant
                  "Age" (VInt 99) ltac:(by vm_compute))).
Defined.

(** ** Well-formed comparisons *)

Lemma all_append (p : ascii → bool) (x y : string) :
  PyStr.all p (x +:+ y) = PyStr.all p x && PyStr.all p y.
Proof.
  induction x as [|c x IH]; [done|].
  rewrite append_cons. simpl. by rewrite IH, andb_assoc.
Qed.

Lemma all_impl (p q : ascii → bool) (s : string) :
  (∀ c, p c = true → q c = true) →
  PyStr.all p s = true → PyStr.all q s = true.
Proof.
  intros Hpq. induction s as [|c s IH]; simpl; [done|].
  intros [Hc Hs]%andb_true_iff. by rewrite (Hpq _ Hc), IH.
Qed.

Lemma isspace_quiet (c : ascii) :
  PyChar.isspace c = true → operator_char c = false ∧ keyword_char c = false.
Proof. destruct c as [[] [] [] [] [] [] [] []]; by vm_compute. Qed.

Lemma plain_char_cases (c : ascii) :
  plain_char c = true →
  PyChar.isspace c = false ∧ operator_char c = false ∧ keyword_char c = false.
Proof.
  unfold plain_char. rewrite !andb_true_iff, !negb_true_iff. tauto.
Qed.

Lemma prefix_cons (a c : ascii) (p s : string) :
  String.prefix (String a p) (String c s)
  = if ascii_dec a c then String.prefix p s else false.
Proof. simpl. by destruct (ascii_dec a c). Qed.

Lemma prefix_nil (s : string) : String.prefix "" s = true.
Proof. by destruct s. Qed.

(** Settles the comparisons of characters left by [prefix_cons], using the
    hypothesis [Hc] on a character that is a variable. *)
Ltac decide_chars Hc :=
  repeat match goal with
         | |- context [ascii_dec ?a ?b] =>
             destruct (ascii_dec a b) as [E|E];
             [ first [ discriminate E
                     | subst; by vm_compute in Hc
                     | clear E ]
             | first [ by destruct E | clear E ] ]
         end.

Lemma comparison_no_match (prev : option ascii) (c : ascii) (s : string) :
  operator_char c = false → Re.comparison prev (String c s) = None.
Proof.
  intros Hc. unfold Re.comparison, Re.alt, Re.literal.
  rewrite !prefix_cons. decide_chars Hc. reflexivity.
Qed.

Lemma logical_no_match (prev : option ascii) (c : ascii) (s : string) :
  keyword_char c = false → Re.logical prev (String c s) = None.
Proof.
  intros Hc. unfold Re.logical, Re.alt, Re.keyword.
  rewrite !prefix_cons. decide_chars Hc. by rewrite !andb_false_r.
Qed.

Lemma split_go_logical_quiet (s : string) (prev : option ascii) (acc : string) :
  PyStr.all (fun c => negb (keyword_char c)) s = true →
  Re.split_go Re.logical prev 0 acc s = [acc +:+ s].
Proof.
  revert prev acc. induction s as [|c s IH]; intros prev acc; simpl.
  - intros _. by rewrite append_nil_r.
  - intros [Hc Hs]%andb_true_iff. apply negb_true_iff in Hc.
    rewrite (logical_no_match _ _ _ Hc), (IH _ _ Hs). unfold PyStr.snoc.
    by rewrite append_assoc.
Qed.

Lemma split_go_comparison_prev (s : string) (prev prev' : option ascii)
    (skip : nat) (acc : string) :
  Re.split_go Re.comparison prev skip acc s
  = Re.split_go Re.comparison prev' skip acc s.
Proof.
  revert prev prev' skip acc.
  induction s as [|c s IH]; intros prev prev' skip acc; simpl; [done|].
  destruct skip as [|k]; [|done].
  change (Re.comparison prev (String c s))
    with (Re.comparison prev' (String c s)).
  done.
Qed.

Lemma split_go_comparison_quiet (x s : string) (prev : option ascii)
    (acc : string) :
  PyStr.all (fun c => negb (operator_char c)) x = true →
  Re.split_go Re.comparison prev 0 acc (x +:+ s)
  = Re.split_go Re.comparison None 0 (acc +:+ x) s.
Proof.
  revert prev acc. induction x as [|c x IH]; intros prev acc.
  - intros _. rewrite append_nil_r. apply split_go_comparison_prev.
  - intros H. cbn [PyStr.all] in H.
    apply andb_true_iff in H as [Hc Hx]. apply negb_true_iff in Hc.
    rewrite append_cons. cbn [Re.split_go].
    rewrite (comparison_no_match _ _ _ Hc), (IH _ _ Hx). unfold PyStr.snoc.
    by rewrite append_assoc.
Qed.

Lemma comparison_match_operator (op rest : string) (c : ascii)
    (prev : option ascii) :
  is_comparison_operator op = true → operator_char c = false →
  Re.comparison prev (op +:+ String c rest) = Some op.
Proof.
  intros Hop Hc. unfold Re.comparison, Re.alt, Re.literal.
  unfold is_comparison_operator in Hop. apply orb_true_iff in Hop as [Hop|Hop].
  - destruct (is_equality_cases _ Hop) as [-> | ->];
      rewrite ?append_cons; change ("" +:+ ?x) with x;
      rewrite !prefix_cons; decide_chars Hc; reflexivity.
  - destruct (is_ordering_cases _ Hop) as [->|[->|[->| ->]]];
      rewrite ?append_cons; change ("" +:+ ?x) with x;
      rewrite !prefix_cons; decide_chars Hc; reflexivity.
Qed.

Lemma split_go_comparison_operator (op rest : string) (c : ascii)
    (prev : option ascii) (acc : string) :
  is_comparison_operator op = true → operator_char c = false →
  Re.split_go Re.comparison prev 0 acc (op +:+ String c rest)
  = acc :: op :: Re.split_go Re.comparison None 0 "" (String c rest).
Proof.
  intros Hop Hc.
  pose proof (comparison_match_operator op rest c prev Hop Hc) as Hmatch.
  unfold is_comparison_operator in Hop. apply orb_true_iff in Hop as [Hop|Hop].
  - destruct (is_equality_cases _ Hop) as [-> | ->];
      rewrite ?append_cons in *; change ("" +:+ ?x) with x in *;
      cbn [Re.split_go]; rewrite Hmatch; cbn [Re.split_go String.length Nat.sub];
      do 2 f_equal; apply split_go_comparison_prev.
  - destruct (is_ordering_cases _ Hop) as [->|[->|[->| ->]]];
      rewrite ?append_cons in *; change ("" +:+ ?x) with x in *;
      cbn [Re.split_go]; rewrite Hmatch; cbn [Re.split_go String.length Nat.sub];
      do 2 f_equal; apply split_go_comparison_prev.
Qed.

Lemma lstrip_blank (w x : string) :
  blank w = true → PyStr.lstrip (w +:+ x) = PyStr.lstrip x.
Proof.
  unfold blank. induction w as [|c w IH]; [done|].
  intros H. cbn [PyStr.all] in H. apply andb_true_iff in H as [Hc Hw].
  rewrite append_cons. cbn [PyStr.lstrip]. by rewrite Hc, IH.
Qed.

Lemma rstrip_blank (x w : string) :
  blank w = true → PyStr.rstrip (x +:+ w) = PyStr.rstrip x.
Proof.
  unfold blank. intros Hw.
  assert (PyStr.rstrip w = "") as Hbase.
  { induction w as [|c w IH]; [done|]. cbn [PyStr.all] in Hw.
    apply andb_true_iff in Hw as [Hc Hw]. simpl. by rewrite (IH Hw), Hc. }
  induction x as [|c x IH]; [done|].
  rewrite append_cons. simpl. by rewrite IH.
Qed.

Lemma rstrip_word (x v : string) :
  single_word v = true → PyStr.rstrip (x +:+ v) = x +:+ v.
Proof.
  unfold single_word. intros [Hne Hv]%andb_true_iff.
  assert (∀ u, PyStr.all (fun c => negb (PyChar.isspace c)) u = true →
               PyStr.rstrip u = u) as Hbase.
  { induction u as [|c u IH]; [done|]. simpl.
    intros [Hc Hu]%andb_true_iff. apply negb_true_iff in Hc.
    rewrite (IH Hu), Hc. by destruct u. }
  induction x as [|c x IH]; [by apply Hbase|].
  rewrite append_cons. simpl. rewrite IH.
  destruct (x +:+ v) eqn:E; [|done]. destruct x, v; discriminate.
Qed.

Lemma lstrip_word_head (c : ascii) (s : string) :
  PyChar.isspace c = false → PyStr.lstrip (String c s) = String c s.
Proof. intros Hc. simpl. by rewrite Hc. Qed.

Lemma plain_word_single (s : string) :
  plain_word s = true → single_word s = true.
Proof.
  unfold plain_word, single_word. intros [-> Hs]%andb_true_iff. simpl.
  revert Hs. apply all_impl. intros c Hc.
  destruct (plain_char_cases _ Hc) as [-> _]. done.
Qed.

(** Once stripped, a rule is compiled from its comparison parts. *)
Lemma create_rule_intro (rule_string r a op v : string) :
  PyStr.strip rule_string = r → r ≠ "" →
  Re.split Re.logical r = [r] →
  PyStr.strip <$> Re.split Re.comparison r = [a; op; v] →
  create_rule rule_string = OK (compare_node a op v).
Proof.
  intros Hr Hne Hsplit Hp.
  pose proof (strip_strip rule_string) as Hss. rewrite Hr in Hss.
  unfold create_rule. rewrite Hr.
  destruct r as [|c r]; [done|].
  assert (tokenize (String c r) = [String c r]) as ->.
  { unfold tokenize. rewrite Hsplit.
    change (List.filter ?f [?x]) with (if f x then [x] else []).
    cbv beta. rewrite Hss.
    change ([PyStr.strip (String c r)] = [String c r]). by rewrite Hss. }
  assert (is_logical (String c r) = false) as Hlog.
  { destruct (is_logical (String c r)) eqn:Hlog; [|done].
    destruct (is_logical_cases _ Hlog) as [Hk|Hk]; rewrite Hk in Hsplit;
      vm_compute in Hsplit; discriminate. }
  assert (length (Re.split Re.comparison (String c r)) = 3%nat) as Hlen.
  { by rewrite <- (length_fmap PyStr.strip), Hp. }
  cbn [negb PyStr.nonempty loop bind]. unfold loop_body.
  rewrite Hlog, Hlen, Hp. reflexivity.
Qed.

(** X17.  A comparison written as a plain attribute, one of the six
    operators and a plain literal, with any amount of whitespace (also none)
    around each of them, compiles to the leaf of the attribute, the operator
    and the literal: the whitespace is dropped.  Plain means not empty and
    free of whitespace, of the characters [= ! < >] and of the capitals [A]
    and [O]. *)
Theorem plain_comparison_compiles (w1 w2 w3 w4 attribute op val : string) :
  plain_word attribute = true → plain_word val = true →
  is_comparison_operator op = true →
  blank w1 = true → blank w2 = true → blank w3 = true → blank w4 = true →
  create_rule (w1 +:+ attribute +:+ w2 +:+ op +:+ w3 +:+ val +:+ w4)
  = OK (compare_node attribute op val).
Proof.
  intros Ha Hv Hop Hw1 Hw2 Hw3 Hw4.
  pose proof (plain_word_single _ Ha) as Ha1.
  pose proof (plain_word_single _ Hv) as Hv1.
  pose proof (comparison_operator_word _ Hop) as Hop1.
  assert (∀ w, blank w = true →
               PyStr.all (fun c => negb (operator_char c)) w = true
               ∧ PyStr.all (fun c => negb (keyword_char c)) w = true) as Hblank.
  { intros w Hw. split; revert Hw; apply all_impl; intros c Hc;
      destruct (isspace_quiet _ Hc) as [H1 H2]; by rewrite ?H1, ?H2. }
  assert (∀ w, plain_word w = true →
               PyStr.all (fun c => negb (operator_char c)) w = true
               ∧ PyStr.all (fun c => negb (keyword_char c)) w = true) as Hplain.
  { unfold plain_word. intros w [_ Hw]%andb_true_iff.
    split; revert Hw; apply all_impl; intros c Hc;
      destruct (plain_char_cases _ Hc) as (_ & H1 & H2); by rewrite ?H1, ?H2. }
  assert (PyStr.all (fun c => negb (keyword_char c)) op = true) as Hopk.
  { unfold is_comparison_operator in Hop.
    apply orb_true_iff in Hop as [Hop|Hop].
    - by destruct (is_equality_cases _ Hop) as [-> | ->].
    - by destruct (is_ordering_cases _ Hop) as [->|[->|[->| ->]]]. }
  destruct attribute as [|ca a]; [done|].
  assert (PyChar.isspace ca = false) as Hca.
  { unfold single_word in Ha1. simpl in Ha1.
    apply andb_true_iff in Ha1 as [Hca _]. by apply negb_true_iff. }
  set (attr := String ca a) in *.
  set (r := attr +:+ w2 +:+ op +:+ w3 +:+ val).
  apply (create_rule_intro _ r).
  - unfold PyStr.strip. rewrite lstrip_blank by done.
    change (attr +:+ w2 +:+ op +:+ w3 +:+ val +:+ w4)
      with (String ca (a +:+ w2 +:+ op +:+ w3 +:+ val +:+ w4)).
    rewrite lstrip_word_head by done.
    change (String ca (a +:+ w2 +:+ op +:+ w3 +:+ val +:+ w4))
      with (attr +:+ w2 +:+ op +:+ w3 +:+ val +:+ w4).
    rewrite <- !append_assoc, rstrip_blank by done.
    rewrite rstrip_word by done. by rewrite !append_assoc.
  - done.
  - unfold Re.split. rewrite split_go_logical_quiet; [done|].
    unfold r. rewrite !all_append.
    destruct (Hplain _ Ha) as [_ ->]. destruct (Hplain _ Hv) as [_ ->].
    destruct (Hblank _ Hw2) as [_ ->]. destruct (Hblank _ Hw3) as [_ ->].
    by rewrite Hopk.
  - unfold Re.split, r.
    assert (∃ c rest, w3 +:+ val = String c rest ∧ operator_char c = false)
      as (c & rest & Hrest & Hc).
    { destruct w3 as [|c w3].
      - destruct val as [|c val]; [done|]. exists c, val. split; [done|].
        destruct (Hplain _ Hv) as [H _]. simpl in H.
        apply andb_true_iff in H as [H _]. by apply negb_true_iff.
      - exists c, (w3 +:+ val). split; [done|].
        destruct (Hblank _ Hw3) as [H _]. simpl in H.
        apply andb_true_iff in H as [H _]. by apply negb_true_iff. }
    rewrite <- (append_assoc attr w2).
    rewrite split_go_comparison_quiet.
    2:{ rewrite all_append. destruct (Hplain _ Ha) as [-> _].
        by destruct (Hblank _ Hw2) as [-> _]. }
    rewrite Hrest, split_go_comparison_operator by done.
    rewrite <- Hrest, <- (append_nil_r (w3 +:+ val)).
    rewrite split_go_comparison_quiet.
    2:{ rewrite all_append. destruct (Hplain _ Hv) as [-> _].
        by destruct (Hblank _ Hw3) as [-> _]. }
    change ("" +:+ ?x) with x. cbn [Re.split_go fmap list_fmap].
    f_equal; [|f_equal; [|f_equal]].
    + unfold PyStr.strip. change (attr +:+ w2) with (String ca (a +:+ w2)).
      rewrite lstrip_word_head by done.
      change (String ca (a +:+ w2)) with (attr +:+ w2).
      rewrite rstrip_blank by done.
      rewrite <- (rstrip_word "" attr) at 2 by done. done.
    + unfold PyStr.strip.
      rewrite <- (rstrip_word "" op) at 2 by done.
      f_equal. unfold single_word in Hop1.
      apply andb_true_iff in Hop1 as [Hne Hall].
      destruct op as [|co op]; [done|]. simpl in Hall.
      apply andb_true_iff in Hall as [Hco _]. apply negb_true_iff in Hco.
      by apply lstrip_word_head.
    + unfold PyStr.strip. rewrite lstrip_blank by done.
      destruct val as [|cv v]; [done|].
      assert (PyChar.isspace cv = false) as Hcv.
      { unfold single_word in Hv1. simpl in Hv1.
        apply andb_true_iff in Hv1 as [Hcv _]. by apply negb_true_iff. }
      rewrite lstrip_word_head by done.
      by rewrite <- (rstrip_word "" (String cv v)) at 2 by done.
Qed.

Lemma plain_comparison_compiles_witness :
  plain_word "Income" = true ∧ plain_word "5000" = true
  ∧ is_comparison_operator "<=" = true
  ∧ blank "  " = true ∧ blank "" = true
  ∧ create_rule ("  " +:+ "Income" +:+ "" +:+ "<=" +:+ "" +:+ "5000" +:+ "  ")
    = OK (compare_node "Income" "<=" "5000").
Proof.
  do 5 (split; [vm_compute; reflexivity|]).
  by apply (plain_comparison_compiles "  " "" "" "  " "Income" "<=" "5000").
Defined.

Lemma strip_blank_r (s w : string) :
  blank w = true → PyStr.strip (s +:+ w) = PyStr.strip s.
Proof.
  intros Hw. unfold PyStr.strip. induction s as [|c s IH].
  - change ("" +:+ w) with w.
    rewrite <- (append_nil_r w), lstrip_blank by done. done.
  - rewrite append_cons. cbn [PyStr.lstrip].
    destruct (PyChar.isspace c); [exact IH|].
    rewrite <- append_cons. by apply rstrip_blank.
Qed.

(** X18.  Whitespace at either end of a rule is immaterial: [create_rule]
    gives the same tree, or the same error, with or without it. *)
Theorem create_rule_surrounding_whitespace (w1 w2 rule_string : string) :
  blank w1 = true → blank w2 = true →
  create_rule (w1 +:+ rule_string +:+ w2) = create_rule rule_string.
Proof.
  intros Hw1 Hw2.
  assert (PyStr.strip (w1 +:+ rule_string +:+ w2) = PyStr.strip rule_string)
    as Hstrip.
  { rewrite <- append_assoc, strip_blank_r by done.
    unfold PyStr.strip. by rewrite lstrip_blank. }
  unfold create_rule. by rewrite Hstrip.
Qed.

Lemma create_rule_surrounding_whitespace_witness :
  blank " " = true ∧ blank "  " = true
  ∧ create_rule (" " +:+ "age > 1 AND b < 2" +:+ "  ")
    = create_rule "age > 1 AND b < 2".
Proof.
  do 2 (split; [reflexivity|]).
  by apply (create_rule_surrounding_whitespace " " "  " "age > 1 AND b < 2").
Defined.
